(** * PyType: the analysis pipeline (analyzer.py, infer.py, checker.py)

    A shallow embedding of the syntax-tree queries of [ASTAnalyzer], the
    three inference passes of [TypeInferrer] and the per-file orchestration
    of [TypeChecker], followed by the properties of the pipeline.

    Python values are modelled as follows.
    - An [ast] node is a value of the inductive type [ast.node]; the
      interpreter's [isinstance] tests become pattern matching.
    - A [dict] is an insertion-ordered association list ([PyDict]):
      assignment to an existing key keeps the key's position, a new key is
      appended, iteration follows that order.
    - Objects with mutable attributes ([TypeInferrer], [TypeChecker],
      [Reporter], [_ASTWalker]) are records threaded through the methods.
    - What the interpreter alone decides (the text of a float, of a bytes
      literal, of a generic object; the iteration order of a [set]) is an
      operation of the class [PyRuntime]. *)

From Stdlib Require Import ZArith String List Lia.
From Stdlib Require Import Floats.SpecFloat.
From stdpp Require Import base strings list pretty.

Open Scope string_scope.
Open Scope Z_scope.

(** ** Python dictionaries *)

Module PyDict.

Definition dict (V : Type) : Type := list (string * V).

Definition empty {V} : dict V := [].

(** [d.get(k)] *)
Fixpoint get {V} (d : dict V) (k : string) : option V :=
  match d with
  | [] => None
  | (k', v) :: d' => if String.eqb k' k then Some v else get d' k
  end.

(** [d[k] = v] *)
Fixpoint set {V} (d : dict V) (k : string) (v : V) : dict V :=
  match d with
  | [] => [(k, v)]
  | (k', v') :: d' =>
      if String.eqb k' k then (k', v) :: d' else (k', v') :: set d' k v
  end.

(** [k in d] *)
Definition mem {V} (d : dict V) (k : string) : bool :=
  match get d k with Some _ => true | None => false end.

(** [len(d)] *)
Definition len {V} (d : dict V) : nat := length d.

Definition keys {V} (d : dict V) : list string := map fst d.

(** A dict display [{k1: v1, k2: v2, ...}]: the items are stored left to
    right, so a key written twice ends with its last value. *)
Definition display {V} (items : list (string * V)) : dict V :=
  fold_left (fun d kv => set d (fst kv) (snd kv)) items empty.

(** Truth value of a dict: non-empty. *)
Definition truthy {V} (d : dict V) : bool :=
  match d with [] => false | _ => true end.

End PyDict.

Abbreviation dict := PyDict.dict.

(** Truth value of a [str]: non-empty. *)
Definition str_truthy (s : string) : bool :=
  match s with EmptyString => false | _ => true end.

(** [sep.join(parts)] *)
Definition join (sep : string) (parts : list string) : string :=
  String.concat sep parts.

(** ** Syntax trees *)

Module ast.

(** The values a [Constant] node can hold. *)
Inductive constant : Type :=
| CStr (s : string)
| CBytes (b : list Byte.byte)
| CBool (b : bool)
| CInt (n : Z)
| CFloat (x : spec_float)
| CComplex (re im : spec_float)
| CNone
| CEllipsis.

Inductive operator : Type :=
| Add | Sub | Mult | MatMult | Div | Mod | Pow
| LShift | RShift | BitOr | BitXor | BitAnd | FloorDiv.

Inductive unaryop : Type := Invert | Not | UAdd | USub.

(** The node classes the program tests for, with the fields it reads, plus
    [Other] for every remaining class (its child nodes in field order).
    Operator and expression-context objects are leaves that no test of the
    program matches; they are fields here, not child nodes. *)
#[warnings="-register-all"]
Inductive node : Type :=
| Constant (value : constant)
| Name (id : string)
| Attribute (value : node) (attr : string)
| Subscript (value : node) (slice : node)
| List (elts : list node)
| Dict (keys : list (option node)) (values : list node)
| Tuple (elts : list node)
| Set_ (elts : list node)
| Call (func : node) (args : list node) (keywords : list node) (lineno : Z)
| BinOp (left : node) (op : operator) (right : node)
| UnaryOp (op : unaryop) (operand : node)
| FunctionDef (name : string) (args : node) (body : list node)
    (decorator_list : list node) (returns : option node) (lineno : Z)
| ClassDef (name : string) (bases : list node) (keywords : list node)
    (body : list node) (decorator_list : list node) (lineno : Z)
| Return (value : option node)
| Assign (targets : list node) (value : node) (lineno : Z)
| AnnAssign (target : node) (annotation : node) (value : option node)
    (lineno : Z)
| Import (names : list node)
| ImportFrom (module : option string) (names : list node)
| alias (name : string) (asname : option string)
| Module (body : list node)
| arguments (posonlyargs : list node) (args : list node)
    (vararg : option node) (kwonlyargs : list node)
    (kw_defaults : list (option node)) (kwarg : option node)
    (defaults : list node)
| arg (arg_name : string) (annotation : option node)
| Other (class_name : string) (children : list node).

Definition opt_nodes (o : option node) : list node :=
  match o with Some n => [n] | None => [] end.

Definition some_nodes (l : list (option node)) : list node :=
  flat_map opt_nodes l.

(** [ast.iter_child_nodes]: the child nodes in field order, [None] fields
    and [None] list items skipped. *)
Definition iter_child_nodes (n : node) : list node :=
  match n with
  | Constant _ | Name _ | alias _ _ => []
  | Attribute v _ => [v]
  | Subscript v s => [v; s]
  | List es | Tuple es | Set_ es => es
  | Dict ks vs => some_nodes ks ++ vs
  | Call f a kw _ => f :: a ++ kw
  | BinOp l _ r => [l; r]
  | UnaryOp _ o => [o]
  | FunctionDef _ a b d r _ => a :: b ++ d ++ opt_nodes r
  | ClassDef _ bs kw b d _ => bs ++ kw ++ b ++ d
  | Return v => opt_nodes v
  | Assign ts v _ => ts ++ [v]
  | AnnAssign t a v _ => t :: a :: opt_nodes v
  | Import ns | ImportFrom _ ns => ns
  | Module b => b
  | arguments po a va ko kd kw d =>
      po ++ a ++ opt_nodes va ++ ko ++ some_nodes kd ++ opt_nodes kw ++ d
  | arg _ ann => opt_nodes ann
  | Other _ ch => ch
  end.

(** Number of nodes of a tree. *)
Fixpoint size (n : node) : nat :=
  let sizes := fun l => list_sum (List.map size l) in
  let size_opt := fun o => match o with Some x => size x | None => O end in
  let sizes_opt := fun l => list_sum (List.map size_opt l) in
  S (match n with
     | Constant _ | Name _ | alias _ _ => O
     | Attribute v _ => size v
     | Subscript v s => size v + size s
     | List es | Tuple es | Set_ es => sizes es
     | Dict ks vs => sizes_opt ks + sizes vs
     | Call f a kw _ => size f + sizes a + sizes kw
     | BinOp l _ r => size l + size r
     | UnaryOp _ o => size o
     | FunctionDef _ a b d r _ => size a + sizes b + sizes d + size_opt r
     | ClassDef _ bs kw b d _ => sizes bs + sizes kw + sizes b + sizes d
     | Return v => size_opt v
     | Assign ts v _ => sizes ts + size v
     | AnnAssign t a v _ => size t + size a + size_opt v
     | Import ns | ImportFrom _ ns => sizes ns
     | Module b => sizes b
     | arguments po a va ko kd kw d =>
         sizes po + sizes a + size_opt va + sizes ko + sizes_opt kd
         + size_opt kw + sizes d
     | arg _ ann => size_opt ann
     | Other _ ch => sizes ch
     end)%nat.

(** Field access through [FunctionDef.args]: on a parsed tree that field is
    an [arguments] node and the items of its [args] list are [arg] nodes. *)
Definition arguments_args (a : node) : list node :=
  match a with arguments _ l _ _ _ _ _ => l | _ => [] end.

Definition function_args (func : node) : list node :=
  match func with FunctionDef _ a _ _ _ _ => arguments_args a | _ => [] end.

Definition arg_arg (a : node) : string :=
  match a with arg s _ => s | _ => EmptyString end.

Definition arg_annotation (a : node) : option node :=
  match a with arg _ ann => ann | _ => None end.

(** The class hierarchy of constant values: [bool] is a subclass of [int]. *)
Definition isinstance_str (v : constant) : bool :=
  match v with CStr _ => true | _ => false end.

Definition isinstance_bool (v : constant) : bool :=
  match v with CBool _ => true | _ => false end.

Definition isinstance_int (v : constant) : bool :=
  match v with CInt _ | CBool _ => true | _ => false end.

Definition isinstance_float (v : constant) : bool :=
  match v with CFloat _ => true | _ => false end.

Definition is_None (v : constant) : bool :=
  match v with CNone => true | _ => false end.

(** [type(v).__name__] *)
Definition type_name (v : constant) : string :=
  match v with
  | CStr _ => "str"
  | CBytes _ => "bytes"
  | CBool _ => "bool"
  | CInt _ => "int"
  | CFloat _ => "float"
  | CComplex _ _ => "complex"
  | CNone => "NoneType"
  | CEllipsis => "ellipsis"
  end.

Definition total_size (l : list node) : nat := list_sum (List.map size l).

(** [ast.walk]: breadth-first, on a queue.  Each turn pops the first node,
    appends its children and yields it; [fuel] bounds the number of turns. *)
Fixpoint walk_queue (fuel : nat) (todo : list node) : list node :=
  match fuel, todo with
  | S fuel', n :: rest => n :: walk_queue fuel' (rest ++ iter_child_nodes n)
  | _, _ => []
  end.

Definition walk (n : node) : list node := walk_queue (size n) [n].

End ast.

Import ast.

(** ** What the interpreter decides *)

Class PyRuntime : Type := {
  (** [str(x)] for a float, a complex number and a bytes object *)
  str_float : spec_float -> string;
  str_complex : spec_float -> spec_float -> string;
  str_bytes : list Byte.byte -> string;
  (** [str(node)] for a syntax node: the default object text *)
  str_object : node -> string;
  (** [repr(s)] for a string *)
  repr_str : string -> string;
  (** the order in which [set(l)] is iterated: some enumeration of the
      distinct items of [l] *)
  set_iter : list string -> list string;
  set_iter_NoDup : forall l, NoDup (set_iter l);
  set_iter_elem : forall l x, x ∈ set_iter l <-> x ∈ l;
}.

(** [str(v)] for the value of a [Constant]. *)
Definition str_constant `{PyRuntime} (v : constant) : string :=
  match v with
  | CStr s => s
  | CBytes b => str_bytes b
  | CBool true => "True"
  | CBool false => "False"
  | CInt n => pretty n
  | CFloat x => str_float x
  | CComplex re im => str_complex re im
  | CNone => "None"
  | CEllipsis => "Ellipsis"
  end.

(** ** config.py *)

Record Config : Type := {
  strict : bool;
  infer : bool;
  fix_ : bool;
  format : string;
  exclude : list string;
  ignore_errors : list string;
  max_line_length : Z;
  python_version : string;
}.

(** [Config()] *)
Definition default_config : Config :=
  {| strict := false; infer := false; fix_ := false; format := "text";
     exclude := []; ignore_errors := []; max_line_length := 88;
     python_version := "3.8" |}.

(** ** analyzer.py *)

Module ASTAnalyzer.

Section WithRuntime.
Context `{PyRuntime}.

(** [_get_type_name] on a node that is not [None].  The recursive calls
    are on the mandatory fields [value] and [slice], so their results are
    strings. *)
Fixpoint get_type_name_node (node : ast.node) : string :=
  match node with
  | Name id => id
  | Attribute value attr => get_type_name_node value ++ "." ++ attr
  | Subscript value slice =>
      let base := get_type_name_node value in
      let slice_name := get_type_name_node slice in
      base ++ "[" ++ slice_name ++ "]"
  | Constant value => str_constant value
  | _ => str_object node
  end.

Definition _get_type_name (node : option ast.node) : option string :=
  match node with
  | None => None
  | Some n => Some (get_type_name_node n)
  end.

Definition _infer_value_type (node : ast.node) : option string :=
  match node with
  | Constant value =>
      if isinstance_str value then Some "str"
      else if isinstance_int value then Some "int"
      else if isinstance_float value then Some "float"
      else if isinstance_bool value then Some "bool"
      else if is_None value then Some "None"
      else None
  | List _ => Some "List"
  | Dict _ _ => Some "Dict"
  | Tuple _ => Some "Tuple"
  | Set_ _ => Some "Set"
  | Call func _ _ _ => _get_type_name (Some func)
  | _ => None
  end.

Record arg_info : Type := {
  ai_name : string;
  ai_has_annotation : bool;
  ai_annotation : option string;
}.

Record signature : Type := {
  sg_name : string;
  sg_lineno : Z;
  sg_args : list arg_info;
  sg_returns : option string;
  sg_has_return_annotation : bool;
}.

Record assignment : Type := {
  as_name : string;
  as_lineno : Z;
  as_has_annotation : bool;
  as_value_type : option string;
}.

Definition _extract_function_args (func_args : ast.node) : list arg_info :=
  map (fun a =>
         {| ai_name := arg_arg a;
            ai_has_annotation := bool_decide (is_Some (arg_annotation a));
            ai_annotation :=
              match arg_annotation a with
              | Some ann => _get_type_name (Some ann)
              | None => None
              end |})
      (arguments_args func_args).

Definition _extract_return_type (returns : option ast.node) : option string :=
  match returns with
  | Some r => _get_type_name (Some r)
  | None => None
  end.

Definition get_function_signatures (tree : ast.node) : list signature :=
  flat_map (fun node =>
    match node with
    | FunctionDef name args _ _ returns lineno =>
        [ {| sg_name := name;
             sg_lineno := lineno;
             sg_args := _extract_function_args args;
             sg_returns := _extract_return_type returns;
             sg_has_return_annotation := bool_decide (is_Some returns) |} ]
    | _ => []
    end) (walk tree).

(** A [Name] target has no [annotation] attribute, so [has_annotation] is
    [False] for every record. *)
Definition get_variable_assignments (tree : ast.node) : list assignment :=
  flat_map (fun node =>
    match node with
    | Assign targets value lineno =>
        flat_map (fun target =>
          match target with
          | Name id =>
              [ {| as_name := id;
                   as_lineno := lineno;
                   as_has_annotation := false;
                   as_value_type := _infer_value_type value |} ]
          | _ => []
          end) targets
    | _ => []
    end) (walk tree).

Record attribute_info : Type := {
  at_name : string;
  at_lineno : Z;
  at_annotation : option string;
  at_has_value : bool;
}.

Record class_info : Type := {
  ci_name : string;
  ci_lineno : Z;
  ci_bases : list (option string);
  ci_methods : list signature;
  ci_attributes : list attribute_info;
}.

(** [_extract_class_methods], on the [body] of the class. *)
Definition _extract_class_methods (body : list ast.node) : list signature :=
  flat_map (fun node =>
    match node with
    | FunctionDef name args _ _ returns lineno =>
        [ {| sg_name := name;
             sg_lineno := lineno;
             sg_args := _extract_function_args args;
             sg_returns := _extract_return_type returns;
             sg_has_return_annotation := bool_decide (is_Some returns) |} ]
    | _ => []
    end) body.

(** [_extract_class_attributes], on the [body] of the class. *)
Definition _extract_class_attributes (body : list ast.node)
  : list attribute_info :=
  flat_map (fun node =>
    match node with
    | AnnAssign (Name id) annotation value lineno =>
        [ {| at_name := id;
             at_lineno := lineno;
             at_annotation := _get_type_name (Some annotation);
             at_has_value := bool_decide (is_Some value) |} ]
    | _ => []
    end) body.

Definition get_class_definitions (tree : ast.node) : list class_info :=
  flat_map (fun node =>
    match node with
    | ClassDef name bases _ body _ lineno =>
        [ {| ci_name := name;
             ci_lineno := lineno;
             ci_bases := map (fun base => _get_type_name (Some base)) bases;
             ci_methods := _extract_class_methods body;
             ci_attributes := _extract_class_attributes body |} ]
    | _ => []
    end) (walk tree).

End WithRuntime.

(** *** [_ASTWalker] *)

Record _ASTWalker : Type := {
  imports : dict string;
  functions : dict ast.node;
  classes : dict ast.node;
  variables : dict ast.node;
  type_annotations : list string;
  missing_annotations : list (string * Z);
}.

Definition new_walker : _ASTWalker :=
  {| imports := []; functions := []; classes := []; variables := [];
     type_annotations := []; missing_annotations := [] |}.

(** [alias.asname or alias.name] *)
Definition alias_key (a : ast.node) : string :=
  match a with
  | alias name (Some asname) => if str_truthy asname then asname else name
  | alias name None => name
  | _ => EmptyString
  end.

Definition alias_name (a : ast.node) : string :=
  match a with alias name _ => name | _ => EmptyString end.

Definition set_imports (self : _ASTWalker) (v : dict string) : _ASTWalker :=
  {| imports := v; functions := functions self; classes := classes self;
     variables := variables self; type_annotations := type_annotations self;
     missing_annotations := missing_annotations self |}.

Definition set_functions (self : _ASTWalker) (v : dict ast.node) : _ASTWalker :=
  {| imports := imports self; functions := v; classes := classes self;
     variables := variables self; type_annotations := type_annotations self;
     missing_annotations := missing_annotations self |}.

Definition set_classes (self : _ASTWalker) (v : dict ast.node) : _ASTWalker :=
  {| imports := imports self; functions := functions self; classes := v;
     variables := variables self; type_annotations := type_annotations self;
     missing_annotations := missing_annotations self |}.

Definition set_variables (self : _ASTWalker) (v : dict ast.node) : _ASTWalker :=
  {| imports := imports self; functions := functions self;
     classes := classes self; variables := v;
     type_annotations := type_annotations self;
     missing_annotations := missing_annotations self |}.

Definition set_type_annotations (self : _ASTWalker) (v : list string)
  : _ASTWalker :=
  {| imports := imports self; functions := functions self;
     classes := classes self; variables := variables self;
     type_annotations := v;
     missing_annotations := missing_annotations self |}.

Definition append_missing (self : _ASTWalker) (item : string * Z)
  : _ASTWalker :=
  {| imports := imports self; functions := functions self;
     classes := classes self; variables := variables self;
     type_annotations := type_annotations self;
     missing_annotations := missing_annotations self ++ [item] |}.

Definition visit_Import (self : _ASTWalker) (names : list ast.node)
  : _ASTWalker :=
  fold_left (fun self a =>
               set_imports self
                 (PyDict.set (imports self) (alias_key a) (alias_name a)))
            names self.

Definition visit_ImportFrom (self : _ASTWalker) (module : option string)
    (names : list ast.node) : _ASTWalker :=
  let module := match module with
                | Some m => if str_truthy m then m else EmptyString
                | None => EmptyString
                end in
  fold_left (fun self a =>
               set_imports self
                 (PyDict.set (imports self) (alias_key a)
                    (module ++ "." ++ alias_name a)))
            names self.

Definition visit_FunctionDef (config : Config) (self : _ASTWalker)
    (node : ast.node) (name : string) (args : ast.node)
    (returns : option ast.node) (lineno : Z) : _ASTWalker :=
  let self := set_functions self (PyDict.set (functions self) name node) in
  let self :=
    if strict config && bool_decide (returns = None)
    then append_missing self ("function '" ++ name ++ "'", lineno)
    else self in
  fold_left (fun self a =>
               if strict config && bool_decide (arg_annotation a = None)
               then append_missing self
                      ("parameter '" ++ arg_arg a ++ "' in function '"
                       ++ name ++ "'", lineno)
               else self)
            (arguments_args args) self.

Definition visit_ClassDef (self : _ASTWalker) (node : ast.node)
    (name : string) : _ASTWalker :=
  set_classes self (PyDict.set (classes self) name node).

Definition visit_Assign (self : _ASTWalker) (node : ast.node)
    (targets : list ast.node) : _ASTWalker :=
  fold_left (fun self target =>
               match target with
               | Name id =>
                   set_variables self (PyDict.set (variables self) id node)
               | _ => self
               end)
            targets self.

Definition set_add (s : list string) (x : string) : list string :=
  if bool_decide (x ∈ s) then s else s ++ [x].

Definition visit_AnnAssign (self : _ASTWalker) (target : ast.node)
  : _ASTWalker :=
  match target with
  | Name id => set_type_annotations self (set_add (type_annotations self) id)
  | _ => self
  end.

(** [NodeVisitor.visit]: dispatch on the node's class; every [visit_*]
    method of the walker ends with [generic_visit], which visits the child
    nodes in field order.  [fuel] bounds the depth of the recursion. *)
Fixpoint visit (config : Config) (fuel : nat) (self : _ASTWalker)
    (node : ast.node) : _ASTWalker :=
  match fuel with
  | O => self
  | S fuel' =>
      let generic_visit := fun self =>
        fold_left (visit config fuel') (iter_child_nodes node) self in
      match node with
      | Import names => generic_visit (visit_Import self names)
      | ImportFrom module names =>
          generic_visit (visit_ImportFrom self module names)
      | FunctionDef name args _ _ returns lineno =>
          generic_visit
            (visit_FunctionDef config self node name args returns lineno)
      | ClassDef name _ _ _ _ _ => generic_visit (visit_ClassDef self node name)
      | Assign targets _ _ => generic_visit (visit_Assign self node targets)
      | AnnAssign target _ _ _ => generic_visit (visit_AnnAssign self target)
      | _ => generic_visit self
      end
  end.

(** [analyze_ast]: the walker's collections after visiting the tree. *)
Definition analyze_ast (config : Config) (tree : ast.node) : _ASTWalker :=
  visit config (size tree) new_walker tree.

End ASTAnalyzer.

(** ** infer.py *)

Module TypeInferrer.

(** A signature dict: the optional key ['args'] (argument name to type)
    and the optional key ['returns']. *)
Record signature : Type := {
  sig_args : option (dict string);
  sig_returns : option string;
}.

(** Truth value of a signature dict: it has at least one key. *)
Definition sig_truthy (s : signature) : bool :=
  match sig_args s, sig_returns s with
  | None, None => false
  | _, _ => true
  end.

Record TypeInferrer : Type := {
  _type_map : dict string;
  _function_signatures : dict signature;
  _variable_types : dict string;
}.

Definition new_inferrer : TypeInferrer :=
  {| _type_map := []; _function_signatures := []; _variable_types := [] |}.

Definition set_function_signature (self : TypeInferrer) (name : string)
    (s : signature) : TypeInferrer :=
  {| _type_map := _type_map self;
     _function_signatures := PyDict.set (_function_signatures self) name s;
     _variable_types := _variable_types self |}.

Definition set_variable_type (self : TypeInferrer) (name : string)
    (t : string) : TypeInferrer :=
  {| _type_map := _type_map self;
     _function_signatures := _function_signatures self;
     _variable_types := PyDict.set (_variable_types self) name t |}.

Definition get_inferred_function_signature (self : TypeInferrer)
    (func_name : string) : option signature :=
  PyDict.get (_function_signatures self) func_name.

Definition get_inferred_variable_type (self : TypeInferrer)
    (var_name : string) : option string :=
  PyDict.get (_variable_types self) var_name.

(** The items of the dict display in [_infer_type_from_method], in the
    order they are written. *)
Definition method_type_items : list (string * string) :=
  [ ("append", "List"); ("extend", "List"); ("insert", "List");
    ("remove", "List"); ("pop", "List"); ("clear", "List");
    ("index", "List"); ("count", "List"); ("sort", "List");
    ("reverse", "List"); ("copy", "List");
    ("update", "Dict"); ("get", "Dict"); ("setdefault", "Dict");
    ("popitem", "Dict"); ("keys", "Dict"); ("values", "Dict");
    ("items", "Dict");
    ("add", "Set"); ("remove", "Set"); ("discard", "Set"); ("pop", "Set");
    ("clear", "Set"); ("union", "Set"); ("intersection", "Set");
    ("difference", "Set"); ("symmetric_difference", "Set");
    ("strip", "str"); ("split", "str"); ("join", "str");
    ("replace", "str"); ("upper", "str"); ("lower", "str");
    ("capitalize", "str"); ("title", "str") ].

Definition method_type_map : dict string := PyDict.display method_type_items.

Definition _infer_type_from_method (method_name : string) : option string :=
  PyDict.get method_type_map method_name.

Definition _infer_type_from_operation (op : operator) : option string :=
  match op with
  | Add | Sub | Mult | Div | Mod | Pow => Some "int"
  | MatMult => Some "Any"
  | LShift | RShift | BitOr | BitXor | BitAnd => Some "int"
  | _ => None
  end.

Definition _get_constant_type (value : constant) : string :=
  if isinstance_str value then "str"
  else if isinstance_bool value then "bool"
  else if isinstance_int value then "int"
  else if isinstance_float value then "float"
  else if is_None value then "None"
  else type_name value.

(** [t in ("int", "float")] for an optional type. *)
Definition is_numeric (t : option string) : bool :=
  match t with
  | Some s => String.eqb s "int" || String.eqb s "float"
  | None => false
  end.

Definition is_type (t : option string) (s : string) : bool :=
  match t with Some s' => String.eqb s' s | None => false end.

(** The body of [_infer_binop_type] once both operand types are known. *)
Definition binop_type (op : operator) (left_type right_type : option string)
  : option string :=
  match op with
  | Add | Sub | Mult | Div =>
      if is_type left_type "str" && is_type right_type "str" then Some "str"
      else if is_numeric left_type && is_numeric right_type then
        if is_type left_type "float" || is_type right_type "float"
        then Some "float" else Some "int"
      else left_type
  | _ => left_type
  end.

(** The body of [_infer_unaryop_type] once the operand type is known. *)
Definition unaryop_type (op : unaryop) (operand_type : option string)
  : option string :=
  match op with
  | UAdd | USub =>
      if is_numeric operand_type then operand_type else operand_type
  | _ => operand_type
  end.

Definition _infer_call_type (self : TypeInferrer) (func : ast.node)
  : option string :=
  match func with
  | Name func_name =>
      match PyDict.get (_function_signatures self) func_name with
      | Some s => sig_returns s
      | None => None
      end
  | _ => None
  end.

Definition _infer_attribute_type (self : TypeInferrer) (node : ast.node)
  : option string := None.

Fixpoint _infer_expression_type (self : TypeInferrer) (node : ast.node)
  : option string :=
  match node with
  | Constant value => Some (_get_constant_type value)
  | Name id => PyDict.get (_variable_types self) id
  | List _ => Some "List"
  | Dict _ _ => Some "Dict"
  | Tuple _ => Some "Tuple"
  | Set_ _ => Some "Set"
  | Call func _ _ _ => _infer_call_type self func
  | Attribute _ _ => _infer_attribute_type self node
  | BinOp left_ op right_ =>
      binop_type op (_infer_expression_type self left_)
                    (_infer_expression_type self right_)
  | UnaryOp op operand => unaryop_type op (_infer_expression_type self operand)
  | _ => None
  end.

Definition _infer_binop_type (self : TypeInferrer) (left_ : ast.node)
    (op : operator) (right_ : ast.node) : option string :=
  let left_type := _infer_expression_type self left_ in
  let right_type := _infer_expression_type self right_ in
  binop_type op left_type right_type.

Definition _infer_unaryop_type (self : TypeInferrer) (op : unaryop)
    (operand : ast.node) : option string :=
  unaryop_type op (_infer_expression_type self operand).

(** [if t:] for an optional string: present and non-empty. *)
Definition inferable (t : option string) : option string :=
  match t with
  | Some s => if str_truthy s then Some s else None
  | None => None
  end.

Definition _infer_argument_types (func : ast.node) : option (dict string) :=
  let arg_names := map arg_arg (function_args func) in
  let arg_types :=
    fold_left (fun arg_types node =>
      match node with
      | Call (Attribute (Name arg_name) attr) _ _ _ =>
          if bool_decide (arg_name ∈ arg_names) then
            match inferable (_infer_type_from_method attr) with
            | Some method_type => PyDict.set arg_types arg_name method_type
            | None => arg_types
            end
          else arg_types
      | BinOp (Name arg_name) op _ =>
          if bool_decide (arg_name ∈ arg_names) then
            match inferable (_infer_type_from_operation op) with
            | Some op_type => PyDict.set arg_types arg_name op_type
            | None => arg_types
            end
          else arg_types
      | _ => arg_types
      end) (walk func) PyDict.empty in
  if PyDict.truthy arg_types then Some arg_types else None.

(** The list [return_types] built by the loop of [_infer_return_type]. *)
Definition return_types (self : TypeInferrer) (func : ast.node)
  : list string :=
  flat_map (fun node =>
    match node with
    | Return (Some value) =>
        match inferable (_infer_expression_type self value) with
        | Some return_type => [return_type]
        | None => []
        end
    | _ => []
    end) (walk func).

Section WithRuntime.
Context `{PyRuntime}.

Definition _infer_return_type (self : TypeInferrer) (func : ast.node)
  : option string :=
  let return_types := return_types self func in
  match return_types with
  | [] => None
  | first :: _ =>
      if Nat.eqb (length (set_iter return_types)) 1 then Some first
      else Some ("Union[" ++ join ", " (set_iter return_types) ++ "]")
  end.

Definition _infer_function_signature (self : TypeInferrer) (func : ast.node)
  : option signature :=
  let arg_types := _infer_argument_types func in
  let return_type := inferable (_infer_return_type self func) in
  let signature := {| sig_args := arg_types; sig_returns := return_type |} in
  if sig_truthy signature then Some signature else None.

(** [_get_type_name], written out a second time in infer.py. *)
Fixpoint get_type_name_node (node : ast.node) : string :=
  match node with
  | Name id => id
  | Attribute value attr => get_type_name_node value ++ "." ++ attr
  | Subscript value slice =>
      let base := get_type_name_node value in
      let slice_name := get_type_name_node slice in
      base ++ "[" ++ slice_name ++ "]"
  | Constant value => str_constant value
  | _ => str_object node
  end.

Definition _get_type_name (node : option ast.node) : option string :=
  match node with
  | None => None
  | Some n => Some (get_type_name_node n)
  end.

(** One turn of the loop of [_collect_basic_types]. *)
Definition collect_step (self : TypeInferrer) (node : ast.node)
  : TypeInferrer :=
  match node with
  | AnnAssign (Name id) annotation _ _ =>
      match inferable (_get_type_name (Some annotation)) with
      | Some type_name => set_variable_type self id type_name
      | None => self
      end
  | FunctionDef name _ _ _ (Some returns) _ =>
      match inferable (_get_type_name (Some returns)) with
      | Some return_type =>
          set_function_signature self name
            {| sig_args := None; sig_returns := Some return_type |}
      | None => self
      end
  | _ => self
  end.

Definition _collect_basic_types (self : TypeInferrer) (tree : ast.node)
  : TypeInferrer :=
  fold_left collect_step (walk tree) self.

(** One turn of the loop of [_infer_function_signatures]. *)
Definition signature_step (self : TypeInferrer) (node : ast.node)
  : TypeInferrer :=
  match node with
  | FunctionDef name _ _ _ _ _ =>
      match _infer_function_signature self node with
      | Some signature => set_function_signature self name signature
      | None => self
      end
  | _ => self
  end.

Definition _infer_function_signatures (self : TypeInferrer) (tree : ast.node)
  : TypeInferrer :=
  fold_left signature_step (walk tree) self.

(** One turn of the inner loop of [_infer_variable_types]. *)
Definition target_step (value : ast.node) (self : TypeInferrer)
    (target : ast.node) : TypeInferrer :=
  match target with
  | Name id =>
      match inferable (_infer_expression_type self value) with
      | Some inferred_type => set_variable_type self id inferred_type
      | None => self
      end
  | _ => self
  end.

(** One turn of the outer loop of [_infer_variable_types]. *)
Definition variable_step (self : TypeInferrer) (node : ast.node)
  : TypeInferrer :=
  match node with
  | Assign targets value _ => fold_left (target_step value) targets self
  | _ => self
  end.

Definition _infer_variable_types (self : TypeInferrer) (tree : ast.node)
  : TypeInferrer :=
  fold_left variable_step (walk tree) self.

(** [infer_types]: the three maps are cleared, then the three passes run
    in order on the same maps. *)
Definition infer_types (self : TypeInferrer) (tree : ast.node)
  : TypeInferrer :=
  let self := new_inferrer in
  let self := _collect_basic_types self tree in
  let self := _infer_function_signatures self tree in
  let self := _infer_variable_types self tree in
  self.

End WithRuntime.

End TypeInferrer.

(** ** reporter.py *)

Module Reporter.

Record report : Type := {
  file : string;
  line : Z;
  message : string;
  type : string;
  severity : string;
}.

(** The three lists a [Reporter] keeps (what it prints is derived from
    the same values and is not modelled). *)
Record Reporter : Type := {
  errors : list report;
  warnings : list report;
  info_messages : list string;
}.

Definition new_reporter : Reporter :=
  {| errors := []; warnings := []; info_messages := [] |}.

Definition report_error (self : Reporter) (file_path : string) (line : Z)
    (message error_type : string) : Reporter :=
  {| errors := errors self ++
       [ {| file := file_path; line := line; message := message;
            type := error_type; severity := "error" |} ];
     warnings := warnings self;
     info_messages := info_messages self |}.

Definition report_warning (self : Reporter) (file_path : string) (line : Z)
    (message warning_type : string) : Reporter :=
  {| errors := errors self;
     warnings := warnings self ++
       [ {| file := file_path; line := line; message := message;
            type := warning_type; severity := "warning" |} ];
     info_messages := info_messages self |}.

Definition report_info (self : Reporter) (message : string) : Reporter :=
  {| errors := errors self;
     warnings := warnings self;
     info_messages := info_messages self ++ [message] |}.

End Reporter.

(** ** checker.py *)

Module TypeChecker.

(** A [pathlib.Path], through the two views the checker takes of it. *)
Record Path : Type := {
  path_str : string;   (* str(file_path) *)
  path_name : string;  (* file_path.name *)
}.

(** What opening, reading and parsing the file does: the environment's
    part of [ASTAnalyzer.parse_file]. *)
Inductive parse_result : Type :=
| Parsed (tree : ast.node)
| RaisesSyntaxError (e : string)
| RaisesException (e : string).

(** [ASTAnalyzer.parse_file]: the tree or [None], and the lines printed
    on standard error. *)
Definition parse_file (file_path : Path) (r : parse_result)
  : option ast.node * list string :=
  match r with
  | Parsed tree => (Some tree, [])
  | RaisesSyntaxError e =>
      (None, ["Syntax error in " ++ path_str file_path ++ ": " ++ e])
  | RaisesException e =>
      (None, ["Error parsing " ++ path_str file_path ++ ": " ++ e])
  end.

(** An entry of [self.errors] or [self.warnings]. *)
Record issue : Type := {
  type : string;
  message : string;
  line : Z;
  file : string;
}.

Record TypeChecker : Type := {
  config : Config;
  reporter : Reporter.Reporter;
  inferrer : TypeInferrer.TypeInferrer;
  errors : list issue;
  warnings : list issue;
}.

(** [TypeChecker(config, reporter)] *)
Definition new_checker (config : Config) (reporter : Reporter.Reporter)
  : TypeChecker :=
  {| config := config; reporter := reporter;
     inferrer := TypeInferrer.new_inferrer; errors := []; warnings := [] |}.

Definition with_reporter (self : TypeChecker) (r : Reporter.Reporter)
  : TypeChecker :=
  {| config := config self; reporter := r; inferrer := inferrer self;
     errors := errors self; warnings := warnings self |}.

Definition with_inferrer (self : TypeChecker) (i : TypeInferrer.TypeInferrer)
  : TypeChecker :=
  {| config := config self; reporter := reporter self; inferrer := i;
     errors := errors self; warnings := warnings self |}.

Definition append_error (self : TypeChecker) (e : issue) : TypeChecker :=
  {| config := config self; reporter := reporter self;
     inferrer := inferrer self; errors := errors self ++ [e];
     warnings := warnings self |}.

Definition append_warning (self : TypeChecker) (w : issue) : TypeChecker :=
  {| config := config self; reporter := reporter self;
     inferrer := inferrer self; errors := errors self;
     warnings := warnings self ++ [w] |}.

(** [self.errors.clear(); self.warnings.clear()] *)
Definition clear_issues (self : TypeChecker) : TypeChecker :=
  {| config := config self; reporter := reporter self;
     inferrer := inferrer self; errors := []; warnings := [] |}.

Section WithRuntime.
Context `{PyRuntime}.

Definition _check_function_signatures (self : TypeChecker) (file_path : Path)
    (tree : ast.node) : TypeChecker :=
  let signatures := ASTAnalyzer.get_function_signatures tree in
  fold_left (fun self sig =>
    let self :=
      if strict (config self)
         && negb (ASTAnalyzer.sg_has_return_annotation sig)
      then append_error self
             {| type := "missing_return_type";
                message := "Missing return type annotation for function '"
                           ++ ASTAnalyzer.sg_name sig ++ "'";
                line := ASTAnalyzer.sg_lineno sig;
                file := path_str file_path |}
      else self in
    fold_left (fun self a =>
      if strict (config self) && negb (ASTAnalyzer.ai_has_annotation a)
      then append_warning self
             {| type := "missing_arg_type";
                message := "Missing type annotation for parameter '"
                           ++ ASTAnalyzer.ai_name a ++ "' in function '"
                           ++ ASTAnalyzer.sg_name sig ++ "'";
                line := ASTAnalyzer.sg_lineno sig;
                file := path_str file_path |}
      else self) (ASTAnalyzer.sg_args sig) self)
    signatures self.

(** The loop body is [pass]: the assignments are computed and dropped. *)
Definition _check_variable_assignments (self : TypeChecker) (file_path : Path)
    (tree : ast.node) : TypeChecker :=
  let assignments := ASTAnalyzer.get_variable_assignments tree in
  fold_left (fun self _ => self) assignments self.

Definition _check_missing_annotations (self : TypeChecker) (file_path : Path)
    (analysis : ASTAnalyzer._ASTWalker) : TypeChecker :=
  fold_left (fun self '(item, line) =>
    if strict (config self)
    then append_error self
           {| type := "missing_annotation";
              message := "Missing type annotation for " ++ item;
              line := line;
              file := path_str file_path |}
    else append_warning self
           {| type := "missing_annotation";
              message := "Missing type annotation for " ++ item;
              line := line;
              file := path_str file_path |})
    (ASTAnalyzer.missing_annotations analysis) self.

Definition _check_function_call (self : TypeChecker) (file_path : Path)
    (node : ast.node) : TypeChecker :=
  match node with
  | Call (Name func_name) actual_args _ lineno =>
      if infer (config self) then
        match TypeInferrer.get_inferred_function_signature (inferrer self)
                func_name with
        | Some signature =>
            match TypeInferrer.sig_truthy signature,
                  TypeInferrer.sig_args signature with
            | true, Some expected_args =>
                if negb (Nat.eqb (length actual_args)
                                 (PyDict.len expected_args))
                then append_error self
                       {| type := "argument_count_mismatch";
                          message := "Function '" ++ func_name
                            ++ "' expects "
                            ++ pretty (PyDict.len expected_args)
                            ++ " arguments, got "
                            ++ pretty (length actual_args);
                          line := lineno;
                          file := path_str file_path |}
                else self
            | _, _ => self
            end
        | None => self
        end
      else self
  | _ => self
  end.

Definition _check_assignment (self : TypeChecker) (file_path : Path)
    (node : ast.node) : TypeChecker := self.

Definition _check_type_mismatches (self : TypeChecker) (file_path : Path)
    (tree : ast.node) : TypeChecker :=
  fold_left (fun self node =>
    match node with
    | Call _ _ _ _ => _check_function_call self file_path node
    | Assign _ _ _ => _check_assignment self file_path node
    | _ => self
    end) (walk tree) self.

(** [repr] of a dict from strings to strings. *)
Definition repr_str_dict (d : dict string) : string :=
  "{" ++ join ", " (map (fun kv => repr_str (fst kv) ++ ": "
                                   ++ repr_str (snd kv)) d) ++ "}".

(** [repr] of a signature dict: the key ['args'] comes before ['returns']. *)
Definition repr_signature (s : TypeInferrer.signature) : string :=
  "{" ++ join ", "
    (match TypeInferrer.sig_args s with
     | Some a => [repr_str "args" ++ ": " ++ repr_str_dict a]
     | None => []
     end ++
     match TypeInferrer.sig_returns s with
     | Some r => [repr_str "returns" ++ ": " ++ repr_str r]
     | None => []
     end) ++ "}".

Definition report_infos (r : Reporter.Reporter) (messages : list string)
  : Reporter.Reporter :=
  fold_left Reporter.report_info messages r.

Definition _report_inferred_types (self : TypeChecker) (file_path : Path)
    (inferred_types : TypeInferrer.TypeInferrer) : TypeChecker :=
  let function_signatures :=
    TypeInferrer._function_signatures inferred_types in
  let variable_types := TypeInferrer._variable_types inferred_types in
  let r := reporter self in
  let r :=
    if PyDict.truthy function_signatures then
      report_infos r
        (("Inferred function signatures in " ++ path_name file_path ++ ":")
         :: map (fun kv => "  " ++ fst kv ++ ": " ++ repr_signature (snd kv))
                function_signatures)
    else r in
  let r :=
    if PyDict.truthy variable_types then
      report_infos r
        (("Inferred variable types in " ++ path_name file_path ++ ":")
         :: map (fun kv => "  " ++ fst kv ++ ": " ++ snd kv) variable_types)
    else r in
  with_reporter self r.

Definition _report_issues (self : TypeChecker) (file_path : Path)
  : TypeChecker :=
  let r := reporter self in
  let r := fold_left (fun r e =>
             Reporter.report_error r (path_str file_path) (line e)
               (message e) (type e)) (errors self) r in
  let r := fold_left (fun r w =>
             Reporter.report_warning r (path_str file_path) (line w)
               (message w) (type w)) (warnings self) r in
  with_reporter self r.

Definition _auto_fix_file (self : TypeChecker) (file_path : Path)
    (tree : ast.node) : TypeChecker :=
  if negb (fix_ (config self)) then self
  else with_reporter self
         (Reporter.report_info (reporter self)
            ("Auto-fixing " ++ path_name file_path ++ " (placeholder)")).

(** The outcome of one call of [check_file]. *)
Record outcome : Type := {
  returned : Z;
  checker : TypeChecker;
  stderr : list string;
}.

Definition check_file (self : TypeChecker) (file_path : Path)
    (content : parse_result) : outcome :=
  let self := clear_issues self in
  let '(tree, printed) := parse_file file_path content in
  match tree with
  | None => {| returned := 1; checker := self; stderr := printed |}
  | Some tree =>
      let analysis := ASTAnalyzer.analyze_ast (config self) tree in
      let self :=
        if infer (config self) then
          let inferred_types :=
            TypeInferrer.infer_types (inferrer self) tree in
          let self := with_inferrer self inferred_types in
          _report_inferred_types self file_path inferred_types
        else self in
      let self := _check_function_signatures self file_path tree in
      let self := _check_variable_assignments self file_path tree in
      let self := _check_missing_annotations self file_path analysis in
      let self := _check_type_mismatches self file_path tree in
      let self := _report_issues self file_path in
      let self :=
        if fix_ (config self) then _auto_fix_file self file_path tree
        else self in
      {| returned := Z.of_nat (length (errors self));
         checker := self; stderr := printed |}
  end.

Definition get_error_count (self : TypeChecker) : Z :=
  Z.of_nat (length (errors self)).

Definition get_warning_count (self : TypeChecker) : Z :=
  Z.of_nat (length (warnings self)).

End WithRuntime.

End TypeChecker.

(** ** cli.py: the loop of [main] over the targets *)

Module cli.

(** A validated target, with what the file system holds for it: a file
    and what parsing it gives, or a directory and the files
    [target.rglob("*.py")] yields, in that order. *)
Inductive target : Type :=
| File (path : TypeChecker.Path) (content : TypeChecker.parse_result)
| Directory (py_files : list (TypeChecker.Path * TypeChecker.parse_result)).

(** [pattern in s] on strings: [pattern] occurs in [s] as a substring. *)
Fixpoint contains (s pattern : string) : bool :=
  String.prefix pattern s
  || match s with
     | EmptyString => false
     | String _ s' => contains s' pattern
     end.

(** [any(pattern in str(py_file) for pattern in config.exclude)] *)
Definition excluded (config : Config) (py_file : TypeChecker.Path) : bool :=
  existsb (contains (TypeChecker.path_str py_file)) (exclude config).

(** The loop variables of [main]. *)
Record progress : Type := {
  checker : TypeChecker.TypeChecker;
  total_errors : Z;
  total_files : Z;
}.

Section WithRuntime.
Context `{PyRuntime}.

(** [errors = checker.check_file(f); total_errors += errors;
    total_files += 1] *)
Definition check_one (st : progress) (file_path : TypeChecker.Path)
    (content : TypeChecker.parse_result) : progress :=
  let out := TypeChecker.check_file (checker st) file_path content in
  {| checker := TypeChecker.checker out;
     total_errors := total_errors st + TypeChecker.returned out;
     total_files := total_files st + 1 |}.

(** The body of [for target in targets]. *)
Definition process_target (st : progress) (t : target) : progress :=
  match t with
  | File path content => check_one st path content
  | Directory py_files =>
      fold_left (fun st '(py_file, content) =>
                   if excluded (TypeChecker.config (checker st)) py_file
                   then st
                   else check_one st py_file content)
                py_files st
  end.

Definition process_targets (checker : TypeChecker.TypeChecker)
    (targets : list target) : progress :=
  fold_left process_target targets
    {| checker := checker; total_errors := 0; total_files := 0 |}.

End WithRuntime.

(** [return 0 if total_errors == 0 else 1] *)
Definition exit_status (total_errors : Z) : Z :=
  if Z.eqb total_errors 0 then 0 else 1.

End cli.

(** ** Auxiliary definitions for the statements *)

(** An interpreter on which the definitions are evaluated in the closed
    examples: a set is iterated in the order [remove_dups] leaves, and
    the texts that only the interpreter knows are fixed tags. *)
Definition sample_runtime : PyRuntime :=
  {| str_float := fun _ => "<float>";
     str_complex := fun _ _ => "<complex>";
     str_bytes := fun _ => "<bytes>";
     str_object := fun _ => "<ast object>";
     repr_str := fun s => "'" ++ s ++ "'";
     set_iter := remove_dups;
     set_iter_NoDup := NoDup_remove_dups;
     set_iter_elem := elem_of_remove_dups |}.

(** The float literal [3.14] and [2.0] as binary64 values. *)
Definition float_3_14 : spec_float :=
  S754_finite false 7070651414971679 (-51).

Definition float_2_0 : spec_float := S754_finite false 4503599627370496 (-51).

(** The value of the last item written with key [k] in a dict display. *)
Fixpoint last_value {V} (items : list (string * V)) (k : string) : option V :=
  match items with
  | [] => None
  | (k', v) :: rest =>
      match last_value rest k with
      | Some v' => Some v'
      | None => if String.eqb k' k then Some v else None
      end
  end.

(** The name a [FunctionDef] node binds. *)
Definition def_name (n : ast.node) : option string :=
  match n with FunctionDef name _ _ _ _ _ => Some name | _ => None end.

(** The [(target, value)] pairs the loops of the variable pass go through. *)
Definition assignment_targets (nodes : list ast.node)
  : list (ast.node * ast.node) :=
  flat_map (fun n =>
    match n with
    | Assign targets value _ => map (fun t => (t, value)) targets
    | _ => []
    end) nodes.

Definition assign_step `{PyRuntime} (self : TypeInferrer.TypeInferrer)
    (tv : ast.node * ast.node) : TypeInferrer.TypeInferrer :=
  TypeInferrer.target_step (snd tv) self (fst tv).

(** The condition of the call-site check, as the specification words it:
    inference is enabled, the callee is a bare name, an inferred signature
    exists for it and records an argument list, and the number of
    positional arguments differs from the length of that list. *)
Definition call_mismatch (config : Config)
    (inferrer : TypeInferrer.TypeInferrer) (node : ast.node) : bool :=
  infer config &&
  match node with
  | Call (Name func_name) actual_args _ _ =>
      match TypeInferrer.get_inferred_function_signature inferrer
              func_name with
      | Some signature =>
          match TypeInferrer.sig_args signature with
          | Some expected_args =>
              negb (Nat.eqb (length actual_args) (PyDict.len expected_args))
          | None => false
          end
      | None => false
      end
  | _ => false
  end.

(** The issue the call-site check appends for a call node. *)
Definition mismatch_issue (inferrer : TypeInferrer.TypeInferrer)
    (file_path : TypeChecker.Path) (node : ast.node)
  : list TypeChecker.issue :=
  match node with
  | Call (Name func_name) actual_args _ lineno =>
      match TypeInferrer.get_inferred_function_signature inferrer
              func_name with
      | Some signature =>
          match TypeInferrer.sig_args signature with
          | Some expected_args =>
              [ {| TypeChecker.type := "argument_count_mismatch";
                   TypeChecker.message :=
                     "Function '" ++ func_name ++ "' expects "
                     ++ pretty (PyDict.len expected_args)
                     ++ " arguments, got " ++ pretty (length actual_args);
                   TypeChecker.line := lineno;
                   TypeChecker.file := TypeChecker.path_str file_path |} ]
          | None => []
          end
      | None => []
      end
  | _ => []
  end.

(** What a [visit_*] method does before it calls [generic_visit]. *)
Definition pre_visit (config : Config) (self : ASTAnalyzer._ASTWalker)
    (node : ast.node) : ASTAnalyzer._ASTWalker :=
  match node with
  | Import names => ASTAnalyzer.visit_Import self names
  | ImportFrom module names => ASTAnalyzer.visit_ImportFrom self module names
  | FunctionDef name args _ _ returns lineno =>
      ASTAnalyzer.visit_FunctionDef config self node name args returns lineno
  | ClassDef name _ _ _ _ _ => ASTAnalyzer.visit_ClassDef self node name
  | Assign targets _ _ => ASTAnalyzer.visit_Assign self node targets
  | AnnAssign target _ _ _ => ASTAnalyzer.visit_AnnAssign self target
  | _ => self
  end.

(** The module [x = <value>] with the one statement on line 1. *)
Definition assign_literal (value : ast.node) : ast.node :=
  Module [Assign [Name "x"] value 1].

(** The operators [+], [-], [*], [/]. *)
Definition is_arithmetic (op : operator) : bool :=
  match op with Add | Sub | Mult | Div => true | _ => false end.

Definition is_Add (op : operator) : bool :=
  match op with Add => true | _ => false end.

(** [def f(flag): if flag: return "a" / return 1]: two return statements
    with a [str] and an [int] literal. *)
Definition two_returns : ast.node :=
  FunctionDef "f" (arguments [] [arg "flag" None] None [] [] None [])
    [ Other "If" [Name "flag"; Return (Some (Constant (CStr "a")))];
      Return (Some (Constant (CInt 1))) ]
    [] None 1.

(** [x: int = 0] followed by [x = "s"]. *)
Definition annotated_then_assigned : ast.node :=
  Module [ AnnAssign (Name "x") (Name "int") (Some (Constant (CInt 0))) 1;
           Assign [Name "x"] (Constant (CStr "s")) 2 ].

(** [x: int = 0] followed by [x = obj.attr]. *)
Definition annotated_then_attribute : ast.node :=
  Module [ AnnAssign (Name "x") (Name "int") (Some (Constant (CInt 0))) 1;
           Assign [Name "x"] (Attribute (Name "obj") "attr") 2 ].

(** [def f() -> int: pass] *)
Definition annotated_pass : ast.node :=
  Module [ FunctionDef "f" (arguments [] [] None [] [] None [])
             [Other "Pass" []] [] (Some (Name "int")) 1 ].

(** [def f(x) -> int: x.append(1)] *)
Definition annotated_append : ast.node :=
  Module [ FunctionDef "f" (arguments [] [arg "x" None] None [] [] None [])
             [ Other "Expr"
                 [ Call (Attribute (Name "x") "append")
                     [Constant (CInt 1)] [] 2 ] ]
             [] (Some (Name "int")) 1 ].

(** The checker with its two issue lists replaced. *)
Definition with_issues (self : TypeChecker.TypeChecker)
    (es ws : list TypeChecker.issue) : TypeChecker.TypeChecker :=
  {| TypeChecker.config := TypeChecker.config self;
     TypeChecker.reporter := TypeChecker.reporter self;
     TypeChecker.inferrer := TypeChecker.inferrer self;
     TypeChecker.errors := es;
     TypeChecker.warnings := ws |}.

(** The issues of the signature check, per extracted signature. *)
Definition return_type_issue (file_path : TypeChecker.Path)
    (sig : ASTAnalyzer.signature) : TypeChecker.issue :=
  {| TypeChecker.type := "missing_return_type";
     TypeChecker.message :=
       "Missing return type annotation for function '"
       ++ ASTAnalyzer.sg_name sig ++ "'";
     TypeChecker.line := ASTAnalyzer.sg_lineno sig;
     TypeChecker.file := TypeChecker.path_str file_path |}.

Definition arg_type_issue (file_path : TypeChecker.Path)
    (sig : ASTAnalyzer.signature) (a : ASTAnalyzer.arg_info)
  : TypeChecker.issue :=
  {| TypeChecker.type := "missing_arg_type";
     TypeChecker.message :=
       "Missing type annotation for parameter '" ++ ASTAnalyzer.ai_name a
       ++ "' in function '" ++ ASTAnalyzer.sg_name sig ++ "'";
     TypeChecker.line := ASTAnalyzer.sg_lineno sig;
     TypeChecker.file := TypeChecker.path_str file_path |}.

Definition signature_errors (config : Config) (file_path : TypeChecker.Path)
    (sigs : list ASTAnalyzer.signature) : list TypeChecker.issue :=
  flat_map (fun sig =>
    if strict config && negb (ASTAnalyzer.sg_has_return_annotation sig)
    then [return_type_issue file_path sig] else []) sigs.

Definition arg_warnings (config : Config) (file_path : TypeChecker.Path)
    (sig : ASTAnalyzer.signature) : list TypeChecker.issue :=
  flat_map (fun a =>
    if strict config && negb (ASTAnalyzer.ai_has_annotation a)
    then [arg_type_issue file_path sig a] else []) (ASTAnalyzer.sg_args sig).

Definition signature_warnings (config : Config)
    (file_path : TypeChecker.Path) (sigs : list ASTAnalyzer.signature)
  : list TypeChecker.issue :=
  flat_map (arg_warnings config file_path) sigs.

Definition annotation_issue (file_path : TypeChecker.Path)
    (site : string * Z) : TypeChecker.issue :=
  {| TypeChecker.type := "missing_annotation";
     TypeChecker.message := "Missing type annotation for " ++ fst site;
     TypeChecker.line := snd site;
     TypeChecker.file := TypeChecker.path_str file_path |}.

(** The issues of the call-site check over a list of nodes. *)
Definition call_errors (config : Config)
    (inferrer : TypeInferrer.TypeInferrer) (file_path : TypeChecker.Path)
    (nodes : list ast.node) : list TypeChecker.issue :=
  flat_map (fun n =>
    if call_mismatch config inferrer n
    then mismatch_issue inferrer file_path n else []) nodes.

(** [def f(): pass] and the call [f(1, 2)]. *)
Definition call_without_signature : ast.node :=
  Module [ FunctionDef "f" (arguments [] [] None [] [] None [])
             [Other "Pass" []] [] None 1;
           Other "Expr"
             [ Call (Name "f") [Constant (CInt 1); Constant (CInt 2)] [] 3 ] ].

(** [def f(): return 1] and the call [f(1, 2)]: the signature of [f]
    records a return type and no argument list. *)
Definition call_without_argument_list : ast.node :=
  Module [ FunctionDef "f" (arguments [] [] None [] [] None [])
             [Return (Some (Constant (CInt 1)))] [] None 1;
           Other "Expr"
             [ Call (Name "f") [Constant (CInt 1); Constant (CInt 2)] [] 3 ] ].

(** [def g(x): x.append(0)] and the call [g(1, 2)]. *)
Definition call_with_argument_list : ast.node :=
  Module [ FunctionDef "g" (arguments [] [arg "x" None] None [] [] None [])
             [ Other "Expr"
                 [ Call (Attribute (Name "x") "append")
                     [Constant (CInt 0)] [] 2 ] ]
             [] None 1;
           Other "Expr"
             [ Call (Name "g") [Constant (CInt 1); Constant (CInt 2)] [] 3 ] ].

(** [def h(x): pass] *)
Definition unannotated_function : ast.node :=
  Module [ FunctionDef "h" (arguments [] [arg "x" None] None [] [] None [])
             [Other "Pass" []] [] None 1 ].

Definition sample_path : TypeChecker.Path :=
  {| TypeChecker.path_str := "pkg/mod.py"; TypeChecker.path_name := "mod.py" |}.

Definition inferring_config : Config :=
  {| strict := false; infer := true; fix_ := false; format := "text";
     exclude := []; ignore_errors := []; max_line_length := 88;
     python_version := "3.8" |}.

(** The inferrer the checks of [check_file] consult: the maps of this
    file when inference is enabled, the previous ones otherwise. *)
Definition inferrer_for `{PyRuntime} (self : TypeChecker.TypeChecker)
    (tree : ast.node) : TypeInferrer.TypeInferrer :=
  if infer (TypeChecker.config self)
  then TypeInferrer.infer_types (TypeChecker.inferrer self) tree
  else TypeChecker.inferrer self.

(** The nodes of a tree in the order [NodeVisitor.visit] reaches them:
    a node, then the subtrees of its children in field order. *)
Fixpoint preorder (fuel : nat) (n : ast.node) : list ast.node :=
  match fuel with
  | O => []
  | S fuel' => n :: flat_map (preorder fuel') (iter_child_nodes n)
  end.

Definition descendants (n : ast.node) : list ast.node := preorder (size n) n.

(** The sites [visit_FunctionDef] appends for one node. *)
Definition function_sites (config : Config) (node : ast.node)
  : list (string * Z) :=
  match node with
  | FunctionDef name args _ _ returns lineno =>
      List.app
        (if strict config && bool_decide (returns = None)
         then [("function '" ++ name ++ "'", lineno)] else [])
        (flat_map (fun a =>
           if strict config && bool_decide (arg_annotation a = None)
           then [("parameter '" ++ arg_arg a ++ "' in function '"
                  ++ name ++ "'", lineno)]
           else []) (arguments_args args))
  | _ => []
  end.



(** No entry of the inference maps is empty: every variable type and
    every recorded return type is a non-empty string, every signature
    has a key, and a recorded argument map has an entry. *)
Definition signature_filled (s : TypeInferrer.signature) : Prop :=
  TypeInferrer.sig_truthy s = true
  /\ (forall d, TypeInferrer.sig_args s = Some d -> d <> [])
  /\ (forall r, TypeInferrer.sig_returns s = Some r -> str_truthy r = true).

Definition maps_filled (self : TypeInferrer.TypeInferrer) : Prop :=
  (forall x t, TypeInferrer.get_inferred_variable_type self x = Some t ->
     str_truthy t = true)
  /\ (forall f s, TypeInferrer.get_inferred_function_signature self f = Some s ->
        signature_filled s).

(** The names a tree binds: the [Name] targets of its assignments and
    annotated assignments, and the names of its function definitions. *)
Definition binds_variable (tree : ast.node) (x : string) : Prop :=
  exists n, n ∈ walk tree /\
    match n with
    | Assign targets _ _ => Name x ∈ targets
    | AnnAssign (Name y) _ _ _ => y = x
    | _ => False
    end.

Definition defines_function (tree : ast.node) (f : string) : Prop :=
  exists n, n ∈ walk tree /\ def_name n = Some f.

(** The files the loop of [main] passes to [check_file], in order. *)
Definition checked_files (config : Config) (targets : list cli.target)
  : list (TypeChecker.Path * TypeChecker.parse_result) :=
  flat_map (fun t =>
    match t with
    | cli.File path content => [(path, content)]
    | cli.Directory py_files =>
        filter (fun pc => cli.excluded config (fst pc) = false) py_files
    end) targets.

(** The invariant of the loop of [_infer_argument_types]. *)
Definition argument_types_ok (names : list string) (d : dict string) : Prop :=
  NoDup (PyDict.keys d)
  /\ forall k v, (k, v) ∈ d ->
       k ∈ names /\ v ∈ ["List"; "Dict"; "Set"; "str"; "int"; "Any"].

(** The invariant of the passes for the names they record. *)
Definition names_bound (tree : ast.node) (self : TypeInferrer.TypeInferrer)
  : Prop :=
  (forall x t, TypeInferrer.get_inferred_variable_type self x = Some t ->
     binds_variable tree x)
  /\ (forall f s, TypeInferrer.get_inferred_function_signature self f = Some s ->
        defines_function tree f).

(** The name a [ClassDef] node binds. *)
Definition class_name (n : ast.node) : option string :=
  match n with ClassDef name _ _ _ _ _ => Some name | _ => None end.

(** [class C: x: int = 0 / def m(self): pass] *)
Definition class_with_method : ast.node :=
  Module [ ClassDef "C" [] []
             [ AnnAssign (Name "x") (Name "int") (Some (Constant (CInt 0))) 2;
               FunctionDef "m"
                 (arguments [] [arg "self" None] None [] [] None [])
                 [Other "Pass" []] [] None 3 ]
             [] 1 ].

(** The count [check_file] returns for a file when called on a fresh
    checker with the given configuration. *)
Definition file_errors `{PyRuntime} (config : Config)
    (pc : TypeChecker.Path * TypeChecker.parse_result) : Z :=
  TypeChecker.returned
    (TypeChecker.check_file
       (TypeChecker.new_checker config Reporter.new_reporter)
       (fst pc) (snd pc)).

Definition sum_Z (l : list Z) : Z := fold_right Z.add 0 l.



(** The state of the loop after some files, in terms of the files. *)
Definition advanced `{PyRuntime} (cfg : Config) (st0 st : cli.progress)
    (files : list (TypeChecker.Path * TypeChecker.parse_result)) : Prop :=
  TypeChecker.config (cli.checker st) = cfg
  /\ cli.total_files st = cli.total_files st0 + Z.of_nat (length files)
  /\ cli.total_errors st
     = cli.total_errors st0 + sum_Z (map (file_errors cfg) files).

(** The type an annotated assignment records for [x] in the seed pass,
    if it records one. *)
Definition annotation_of `{PyRuntime} (x : string) (node : ast.node)
  : option string :=
  match node with
  | AnnAssign (Name y) annotation _ _ =>
      if String.eqb y x
      then TypeInferrer.inferable
             (TypeInferrer._get_type_name (Some annotation))
      else None
  | _ => None
  end.

(** [def g(x): x.append(0)] and the call [g(y=1)]. *)
Definition call_by_keyword : ast.node :=
  Module [ FunctionDef "g" (arguments [] [arg "x" None] None [] [] None [])
             [ Other "Expr"
                 [ Call (Attribute (Name "x") "append")
                     [Constant (CInt 0)] [] 2 ] ]
             [] None 1;
           Other "Expr"
             [ Call (Name "g") [] [Other "keyword" [Constant (CInt 1)]] 3 ] ].

(** [x: int] and nothing else. *)
Definition annotated_only : ast.node :=
  Module [ AnnAssign (Name "x") (Name "int") None 1 ].

Definition strict_config : Config :=
  {| strict := true; infer := false; fix_ := false; format := "text";
     exclude := []; ignore_errors := []; max_line_length := 88;
     python_version := "3.8" |}.

(** * Properties *)

(** ** Dictionaries *)

Lemma get_set_eq {V} (d : dict V) k v : PyDict.get (PyDict.set d k v) k = Some v.
Proof.
  induction d as [|[k' v'] d IH]; simpl.
  - by rewrite String.eqb_refl.
  - destruct (String.eqb k' k) eqn:E; simpl; rewrite E; [done | exact IH].
Qed.

Lemma get_set_ne {V} (d : dict V) k k' v :
  k ≠ k' -> PyDict.get (PyDict.set d k v) k' = PyDict.get d k'.
Proof.
  intros Hne. induction d as [|[k0 v0] d IH]; simpl.
  - apply String.eqb_neq in Hne. by rewrite Hne.
  - destruct (String.eqb k0 k) eqn:E; simpl.
    + apply String.eqb_eq in E. subst k0.
      apply String.eqb_neq in Hne. by rewrite Hne.
    + by rewrite IH.
Qed.

Lemma get_set {V} (d : dict V) k k' v :
  PyDict.get (PyDict.set d k v) k'
  = if String.eqb k k' then Some v else PyDict.get d k'.
Proof.
  destruct (String.eqb k k') eqn:E.
  - apply String.eqb_eq in E. subst. apply get_set_eq.
  - apply String.eqb_neq in E. by apply get_set_ne.
Qed.

Lemma fold_set_get {V} (items : list (string * V)) (d : dict V) k :
  PyDict.get (fold_left (fun d kv => PyDict.set d (fst kv) (snd kv)) items d) k
  = match last_value items k with
    | Some v => Some v
    | None => PyDict.get d k
    end.
Proof.
  revert d. induction items as [|[k' v] items IH]; intros d; simpl; [done|].
  rewrite IH. destruct (last_value items k); [done|].
  rewrite get_set. by destruct (String.eqb k' k).
Qed.

(** A dict display resolves every key to the last value written for it. *)
Lemma display_get {V} (items : list (string * V)) k :
  PyDict.get (PyDict.display items) k = last_value items k.
Proof.
  unfold PyDict.display. rewrite fold_set_get.
  by destruct (last_value items k).
Qed.

Lemma last_value_None {V} (items : list (string * V)) k :
  k ∉ map fst items -> last_value items k = None.
Proof.
  induction items as [|[k' v] items IH]; simpl; [done|].
  intros Hnot. rewrite IH.
  - destruct (String.eqb k' k) eqn:E; [|done].
    apply String.eqb_eq in E. subst. exfalso. apply Hnot. left.
  - intros Hin. apply Hnot. by right.
Qed.

(** ** The traversals visit the whole tree *)

Lemma size_children n : size n = S (total_size (iter_child_nodes n)).
Proof.
  assert (Hopt : forall o,
    match o with Some x => size x | None => O end = total_size (opt_nodes o)).
  { intros [x|]; unfold total_size; simpl; lia. }
  assert (Hsome : forall l,
    list_sum (List.map (fun o => match o with Some x => size x | None => O end) l)
    = total_size (some_nodes l)).
  { induction l as [|o l IH]; [done|]. unfold total_size, some_nodes in *.
    simpl. rewrite List.map_app, list_sum_app, IH.
    destruct o; simpl; lia. }
  unfold total_size in *.
  destruct n; simpl; f_equal;
    repeat (rewrite ?List.map_app, ?list_sum_app, ?Hopt, ?Hsome; simpl);
    try lia.
Qed.

Lemma walk_queue_length fuel todo :
  (total_size todo <= fuel)%nat ->
  length (walk_queue fuel todo) = total_size todo.
Proof.
  revert todo. induction fuel as [|fuel IH]; intros todo Hle.
  - destruct todo as [|n rest]; [done|].
    unfold total_size in Hle. simpl in Hle. destruct n; simpl in Hle; lia.
  - destruct todo as [|n rest]; [done|]. simpl.
    assert (Hsz := size_children n).
    unfold total_size in *. simpl in Hle.
    rewrite IH; rewrite List.map_app, list_sum_app; simpl; lia.
Qed.

(** Every node of the tree is yielded: the queue is empty when [walk]
    stops, and more fuel changes nothing. *)
Lemma walk_length n : length (walk n) = size n.
Proof.
  unfold walk. rewrite walk_queue_length; unfold total_size; simpl; lia.
Qed.

Lemma walk_queue_fuel fuel todo :
  (total_size todo <= fuel)%nat ->
  walk_queue fuel todo = walk_queue (total_size todo) todo.
Proof.
  revert todo. induction fuel as [|fuel IH]; intros todo Hle.
  - destruct todo as [|n rest]; [by destruct (total_size [])|].
    unfold total_size in Hle. simpl in Hle. destruct n; simpl in Hle; lia.
  - destruct todo as [|n rest]; [done|].
    assert (Hsz := size_children n).
    assert (Hrest : total_size (n :: rest)
                    = S (total_size (rest ++ iter_child_nodes n))).
    { unfold total_size in *. simpl.
      rewrite List.map_app, list_sum_app. lia. }
    rewrite Hrest. simpl. f_equal. apply IH.
    unfold total_size in *. simpl in Hle.
    rewrite List.map_app, list_sum_app. lia.
Qed.

Lemma walk_head n : exists rest, walk n = n :: rest.
Proof.
  unfold walk. destruct n; simpl; eauto.
Qed.

Lemma fold_left_ext_in {A B} (f g : A -> B -> A) (l : list B) (a : A) :
  (forall a b, b ∈ l -> f a b = g a b) -> fold_left f l a = fold_left g l a.
Proof.
  revert a. induction l as [|b l IH]; intros a Hfg; simpl; [done|].
  rewrite (Hfg a b) by left. apply IH. intros a' b' Hin. apply Hfg. by right.
Qed.

Lemma fold_left_preserve {A B} (P : A -> Prop) (f : A -> B -> A)
    (l : list B) (a : A) :
  (forall a b, b ∈ l -> P a -> P (f a b)) -> P a -> P (fold_left f l a).
Proof.
  revert a. induction l as [|b l IH]; intros a Hf Ha; simpl; [done|].
  apply IH.
  - intros a' b' Hin. apply Hf. by right.
  - apply Hf; [left | done].
Qed.

Lemma size_child_le n c :
  c ∈ iter_child_nodes n -> (size c < size n)%nat.
Proof.
  rewrite (size_children n). generalize (iter_child_nodes n). intros l Hin.
  unfold total_size.
  induction Hin as [x l|x y l Hin IH]; cbn [List.map];
    change (list_sum (?a :: ?r)) with (a + list_sum r)%nat; lia.
Qed.

Lemma visit_S config fuel self node :
  ASTAnalyzer.visit config (S fuel) self node
  = fold_left (ASTAnalyzer.visit config fuel) (iter_child_nodes node)
      (pre_visit config self node).
Proof. destruct node; reflexivity. Qed.

(** The recursion of [visit] never runs out: any fuel from the size of
    the tree on gives the same walker. *)
Lemma visit_fuel config fuel1 fuel2 self node :
  (size node <= fuel1)%nat -> (size node <= fuel2)%nat ->
  ASTAnalyzer.visit config fuel1 self node
  = ASTAnalyzer.visit config fuel2 self node.
Proof.
  revert fuel2 self node.
  induction fuel1 as [|fuel1 IH]; intros fuel2 self node H1 H2.
  { destruct node; simpl in H1; lia. }
  destruct fuel2 as [|fuel2]; [destruct node; simpl in H2; lia|].
  rewrite !visit_S. apply fold_left_ext_in.
  intros w c Hin. apply size_child_le in Hin. apply IH; lia.
Qed.

(** ** C9: one type-name rule, written twice *)

(** C9. The extractor's [_get_type_name] and the inference engine's
    [_get_type_name] agree on every input; a bare identifier maps to
    itself, an attribute access to [<base>.<attr>], a subscript to
    [<base>[<slice>]], a constant to the text of its value, and every other
    node to the interpreter's text for the node object. *)
Theorem C9_get_type_name_shared `{PyRuntime} :
  (forall node : option ast.node,
     ASTAnalyzer._get_type_name node = TypeInferrer._get_type_name node)
  /\ TypeInferrer._get_type_name None = None
  /\ (forall id, TypeInferrer._get_type_name (Some (Name id)) = Some id)
  /\ (forall value attr,
        TypeInferrer._get_type_name (Some (Attribute value attr))
        = Some (TypeInferrer.get_type_name_node value ++ "." ++ attr))
  /\ (forall value slice,
        TypeInferrer._get_type_name (Some (Subscript value slice))
        = Some (TypeInferrer.get_type_name_node value ++ "["
                ++ TypeInferrer.get_type_name_node slice ++ "]"))
  /\ (forall value,
        TypeInferrer._get_type_name (Some (Constant value))
        = Some (str_constant value))
  /\ (forall node,
        match node with
        | Name _ | Attribute _ _ | Subscript _ _ | Constant _ => True
        | _ => TypeInferrer._get_type_name (Some node)
               = Some (str_object node)
        end).
Proof.
  split.
  { assert (Hnode : forall n,
      ASTAnalyzer.get_type_name_node n = TypeInferrer.get_type_name_node n).
    { induction n; simpl; congruence. }
    intros [n|]; simpl; [by rewrite Hnode | done]. }
  split_and!; try done.
  intros node. by destruct node.
Qed.

(** The rule on [typing.List[int]] and on the constant [None]. *)
Example get_type_name_examples :
  @ASTAnalyzer._get_type_name sample_runtime
    (Some (Subscript (Attribute (Name "typing") "List") (Name "int")))
  = Some "typing.List[int]"
  /\ @TypeInferrer._get_type_name sample_runtime (Some (Constant CNone))
     = Some "None".
Proof. split; reflexivity. Qed.

(** ** C2: the method table *)

(** C2. [_infer_type_from_method] returns [List] for [append], [Dict] for
    [update], [str] for [strip], and [None] for [unknown_xyz] and for every
    name that is not a key of the table; every key resolves to the last
    value written for it in the dict display, which for the keys written
    twice ([pop], [remove], [clear]) is [Set]. *)
Theorem C2_method_table :
  TypeInferrer._infer_type_from_method "append" = Some "List"
  /\ TypeInferrer._infer_type_from_method "update" = Some "Dict"
  /\ TypeInferrer._infer_type_from_method "strip" = Some "str"
  /\ TypeInferrer._infer_type_from_method "unknown_xyz" = None
  /\ (forall name,
        name ∉ map fst TypeInferrer.method_type_items ->
        TypeInferrer._infer_type_from_method name = None)
  /\ (forall name,
        TypeInferrer._infer_type_from_method name
        = last_value TypeInferrer.method_type_items name)
  /\ (forall name, name ∈ ["pop"; "remove"; "clear"] ->
        (name, "List") ∈ TypeInferrer.method_type_items
        /\ (name, "Set") ∈ TypeInferrer.method_type_items
        /\ TypeInferrer._infer_type_from_method name = Some "Set").
Proof.
  assert (Hlast : forall name,
    TypeInferrer._infer_type_from_method name
    = last_value TypeInferrer.method_type_items name).
  { intros name. apply display_get. }
  split; [reflexivity|]. split; [reflexivity|]. split; [reflexivity|].
  split; [reflexivity|]. split; [|split; [exact Hlast|]].
  - intros name Hnot. rewrite Hlast. by apply last_value_None.
  - intros name Hin.
    repeat (apply elem_of_cons in Hin as [->|Hin]);
      [| | | by apply elem_of_nil in Hin];
      (split; [|split]); try reflexivity;
      unfold TypeInferrer.method_type_items;
      repeat (first [by apply list_elem_of_here | apply list_elem_of_further]).
Qed.

(** ** C3: literal assignments *)

(** C3. For [x = <literal>] the inference engine's variable pass stores
    [int], [str], [float], [bool], [None] and [List] for [42], ["s"],
    [3.14], [True], [None] and [[1]].  The extractor's [value_type] is the
    same for five of them; for [True] it is [int], because the extractor
    tests [isinstance(value, int)] before [isinstance(value, bool)] and a
    [bool] is an [int]. *)
Theorem C3_literal_assignment_types `{PyRuntime} :
  let inferred := fun value =>
    TypeInferrer.get_inferred_variable_type
      (TypeInferrer.infer_types TypeInferrer.new_inferrer
         (assign_literal value)) "x" in
  let extracted := fun value =>
    map ASTAnalyzer.as_value_type
      (ASTAnalyzer.get_variable_assignments (assign_literal value)) in
  (inferred (Constant (CInt 42)) = Some "int"
   /\ inferred (Constant (CStr "s")) = Some "str"
   /\ inferred (Constant (CFloat float_3_14)) = Some "float"
   /\ inferred (Constant (CBool true)) = Some "bool"
   /\ inferred (Constant CNone) = Some "None"
   /\ inferred (List [Constant (CInt 1)]) = Some "List")
  /\ (extracted (Constant (CInt 42)) = [Some "int"]
      /\ extracted (Constant (CStr "s")) = [Some "str"]
      /\ extracted (Constant (CFloat float_3_14)) = [Some "float"]
      /\ extracted (Constant CNone) = [Some "None"]
      /\ extracted (List [Constant (CInt 1)]) = [Some "List"])
  /\ extracted (Constant (CBool true)) = [Some "int"]
  /\ extracted (Constant (CBool true)) <> [Some "bool"].
Proof.
  cbv zeta. split_and!; try reflexivity. discriminate.
Qed.

(** The branch that returns ["bool"] in the extractor is dead: no constant
    reaches it. *)
Lemma extractor_never_bool `{PyRuntime} (value : constant) :
  ASTAnalyzer._infer_value_type (Constant value) <> Some "bool".
Proof. destruct value; simpl; discriminate. Qed.

(** ** C6: binary operations *)

Lemma is_type_true t s : TypeInferrer.is_type t s = true -> t = Some s.
Proof.
  destruct t as [s'|]; simpl; [|done].
  intros E. apply String.eqb_eq in E. by subst.
Qed.

(** C6, the claim as stated fails: for [1 % 2.0] both operand types are
    numeric and one is [float], but the rule yields the left operand's
    type [int], not [float]; and for [1 - 2.0], an operator other than
    [+], it yields [float], not the left operand's type. *)
Lemma C6_counterexample :
  let self := TypeInferrer.new_inferrer in
  let left_ := Constant (CInt 1) in
  let right_ := Constant (CFloat float_2_0) in
  TypeInferrer._infer_expression_type self left_ = Some "int"
  /\ TypeInferrer._infer_expression_type self right_ = Some "float"
  /\ TypeInferrer._infer_expression_type self (BinOp left_ Mod right_)
     = Some "int"
  /\ TypeInferrer._infer_binop_type self left_ Mod right_ <> Some "float"
  /\ TypeInferrer._infer_binop_type self left_ Sub right_ = Some "float"
  /\ TypeInferrer._infer_binop_type self left_ Sub right_
     <> TypeInferrer._infer_expression_type self left_.
Proof. cbv zeta. split_and!; try reflexivity; discriminate. Qed.

(** C6 (amended). For every binary operation the rule yields [str] when
    both operands are [str] under [+]; when the operator is one of [+],
    [-], [*], [/] and both operand types are numeric, [float] if either is
    [float] and otherwise [int]; in every other combination, and under
    every other operator, the left operand's inferred type. *)
Theorem C6_binop_rule (self : TypeInferrer.TypeInferrer)
    (left_ : ast.node) (op : operator) (right_ : ast.node) :
  let left_type := TypeInferrer._infer_expression_type self left_ in
  let right_type := TypeInferrer._infer_expression_type self right_ in
  TypeInferrer._infer_expression_type self (BinOp left_ op right_)
  = TypeInferrer._infer_binop_type self left_ op right_
  /\ TypeInferrer._infer_binop_type self left_ op right_
     = if is_Add op && TypeInferrer.is_type left_type "str"
          && TypeInferrer.is_type right_type "str"
       then Some "str"
       else if is_arithmetic op && TypeInferrer.is_numeric left_type
               && TypeInferrer.is_numeric right_type
       then if TypeInferrer.is_type left_type "float"
               || TypeInferrer.is_type right_type "float"
            then Some "float" else Some "int"
       else left_type.
Proof.
  cbv zeta. split; [reflexivity|].
  unfold TypeInferrer._infer_binop_type, TypeInferrer.binop_type.
  generalize (TypeInferrer._infer_expression_type self left_) as lt.
  generalize (TypeInferrer._infer_expression_type self right_) as rt.
  intros rt lt.
  destruct (TypeInferrer.is_type lt "str") eqn:El;
    destruct (TypeInferrer.is_type rt "str") eqn:Er;
    destruct op; simpl; try reflexivity;
    apply is_type_true in El; subst lt; reflexivity.
Qed.

(** ** C7: return types *)

Section ReturnTypes.
Context `{PyRuntime}.

Lemma inferable_truthy t s :
  TypeInferrer.inferable t = Some s -> t = Some s /\ str_truthy s = true.
Proof.
  destruct t as [s'|]; simpl; [|done].
  destruct (str_truthy s') eqn:E; [|done]. intros [= <-]. done.
Qed.

Lemma return_types_elem self func t :
  t ∈ TypeInferrer.return_types self func <->
  exists value,
    Return (Some value) ∈ walk func
    /\ TypeInferrer.inferable (TypeInferrer._infer_expression_type self value)
       = Some t.
Proof.
  unfold TypeInferrer.return_types.
  rewrite list_elem_of_In, in_flat_map. split.
  - intros (node & Hin & Ht). apply list_elem_of_In in Hin.
    destruct node; try (by destruct Ht).
    destruct value as [value|]; [|by destruct Ht].
    exists value. split; [done|].
    destruct (TypeInferrer.inferable _) as [t'|]; [|by destruct Ht].
    destruct Ht as [->|[]]. done.
  - intros (value & Hin & Ht). exists (Return (Some value)).
    split; [by apply list_elem_of_In|]. rewrite Ht. by left.
Qed.

Lemma set_iter_length_same (l : list string) t :
  l <> [] -> (forall x, x ∈ l -> x = t) -> length (set_iter l) = 1%nat.
Proof.
  intros Hne Hall.
  assert (Ht : t ∈ set_iter l).
  { apply set_iter_elem. destruct l as [|a l]; [done|].
    rewrite <- (Hall a) by left. left. }
  assert (Hs : forall x, x ∈ set_iter l -> x = t).
  { intros x Hx. apply Hall. by apply set_iter_elem. }
  pose proof (set_iter_NoDup l) as Hnd.
  destruct (set_iter l) as [|a [|b s]]; [by apply elem_of_nil in Ht|done|].
  exfalso. apply NoDup_cons in Hnd as [Hnot _]. apply Hnot.
  rewrite (Hs a) by left. rewrite <- (Hs b) at 1 by (right; left). left.
Qed.

Lemma set_iter_length_diff (l : list string) a b :
  a ∈ l -> b ∈ l -> a <> b -> length (set_iter l) <> 1%nat.
Proof.
  intros Ha Hb Hab Hlen.
  apply set_iter_elem in Ha, Hb.
  destruct (set_iter l) as [|c [|d s]]; [done| |done].
  apply list_elem_of_singleton in Ha, Hb. congruence.
Qed.

Lemma infer_return_type_same self func t :
  TypeInferrer.return_types self func <> [] ->
  (forall x, x ∈ TypeInferrer.return_types self func -> x = t) ->
  TypeInferrer._infer_return_type self func = Some t.
Proof.
  intros Hne Hall. unfold TypeInferrer._infer_return_type.
  rewrite (set_iter_length_same _ t Hne Hall).
  destruct (TypeInferrer.return_types self func) as [|first rest]; [done|].
  simpl. f_equal. apply Hall. left.
Qed.

Lemma infer_return_type_union self func a b :
  a ∈ TypeInferrer.return_types self func ->
  b ∈ TypeInferrer.return_types self func ->
  a <> b ->
  TypeInferrer._infer_return_type self func
  = Some ("Union[" ++ join ", " (set_iter (TypeInferrer.return_types self func))
          ++ "]").
Proof.
  intros Ha Hb Hab. unfold TypeInferrer._infer_return_type.
  pose proof (set_iter_length_diff _ a b Ha Hb Hab) as Hlen.
  destruct (TypeInferrer.return_types self func) as [|first rest];
    [by apply elem_of_nil in Ha|].
  apply Nat.eqb_neq in Hlen. by rewrite Hlen.
Qed.

Lemma infer_return_type_none self func :
  TypeInferrer.return_types self func = [] ->
  TypeInferrer._infer_return_type self func = None.
Proof. intros E. unfold TypeInferrer._infer_return_type. by rewrite E. Qed.

(** C7. The list of collected types holds the type of every
    [return <expr>] of the function whose expression type is inferable.
    If all of them are one type, that type is the inferred return type and
    the entry of the signature; if two of them differ, the result is
    [Union[...]] over an enumeration without repetition of the collected
    types, in the order the interpreter iterates the set; if none was
    collected, there is no return type and the signature, if any, has no
    ['returns'] entry. *)
Theorem C7_return_type_inference (self : TypeInferrer.TypeInferrer)
    (func : ast.node) :
  let collected := TypeInferrer.return_types self func in
  (forall t, t ∈ collected <->
     exists value,
       Return (Some value) ∈ walk func
       /\ TypeInferrer.inferable
            (TypeInferrer._infer_expression_type self value) = Some t)
  /\ (forall t, collected <> [] -> (forall x, x ∈ collected -> x = t) ->
        TypeInferrer._infer_return_type self func = Some t
        /\ exists sig,
             TypeInferrer._infer_function_signature self func = Some sig
             /\ TypeInferrer.sig_returns sig = Some t)
  /\ (forall a b, a ∈ collected -> b ∈ collected -> a <> b ->
        exists members,
          NoDup members
          /\ (forall x, x ∈ members <-> x ∈ collected)
          /\ TypeInferrer._infer_return_type self func
             = Some ("Union[" ++ join ", " members ++ "]")
          /\ exists sig,
               TypeInferrer._infer_function_signature self func = Some sig
               /\ TypeInferrer.sig_returns sig
                  = Some ("Union[" ++ join ", " members ++ "]"))
  /\ (collected = [] ->
        TypeInferrer._infer_return_type self func = None
        /\ forall sig,
             TypeInferrer._infer_function_signature self func = Some sig ->
             TypeInferrer.sig_returns sig = None).
Proof.
  cbv zeta. split_and!.
  - apply return_types_elem.
  - intros t Hne Hall.
    pose proof (infer_return_type_same self func t Hne Hall) as Hret.
    split; [done|].
    assert (Htruthy : str_truthy t = true).
    { destruct (TypeInferrer.return_types self func) as [|x rest] eqn:E;
        [done|].
      assert (Hx : x ∈ TypeInferrer.return_types self func)
        by (rewrite E; left).
      rewrite (Hall x) in Hx by left.
      apply return_types_elem in Hx as (value & _ & Hv).
      by apply inferable_truthy in Hv as [_ ?]. }
    unfold TypeInferrer._infer_function_signature. rewrite Hret. simpl.
    rewrite Htruthy.
    destruct (TypeInferrer._infer_argument_types func); eexists; split; done.
  - intros a b Ha Hb Hab.
    exists (set_iter (TypeInferrer.return_types self func)).
    pose proof (infer_return_type_union self func a b Ha Hb Hab) as Hret.
    split_and!; [apply set_iter_NoDup | apply set_iter_elem | done |].
    unfold TypeInferrer._infer_function_signature. rewrite Hret. simpl.
    destruct (TypeInferrer._infer_argument_types func); eexists; split; done.
  - intros E. pose proof (infer_return_type_none self func E) as Hret.
    split; [done|]. intros sig.
    unfold TypeInferrer._infer_function_signature. rewrite Hret. simpl.
    destruct (TypeInferrer._infer_argument_types func); simpl; [|done].
    by intros [= <-].
Qed.

(** A function returning a [str] literal on one path and an [int] literal
    on another: the result is a union of the two, in either order. *)
Example union_of_two_literals self :
  TypeInferrer._infer_return_type self two_returns = Some "Union[str, int]"
  \/ TypeInferrer._infer_return_type self two_returns
     = Some "Union[int, str]".
Proof.
  assert (E : TypeInferrer.return_types self two_returns = ["int"; "str"])
    by reflexivity.
  pose proof (infer_return_type_union self two_returns "int" "str") as Hu.
  rewrite E in Hu. rewrite Hu; [| left | right; left | done].
  pose proof (set_iter_NoDup ["int"; "str"]) as Hnd.
  pose proof (set_iter_elem ["int"; "str"]) as Hel.
  assert (Hin : forall x, x ∈ set_iter ["int"; "str"] -> x = "int" \/ x = "str").
  { intros x Hx. apply Hel in Hx.
    apply elem_of_cons in Hx as [->|Hx]; [by left|].
    apply list_elem_of_singleton in Hx. by right. }
  assert (Hi : "int" ∈ set_iter ["int"; "str"]) by (apply Hel; left).
  assert (Hs : "str" ∈ set_iter ["int"; "str"]) by (apply Hel; right; left).
  destruct (set_iter ["int"; "str"]) as [|a [|b [|c s]]].
  - by apply elem_of_nil in Hi.
  - apply list_elem_of_singleton in Hi, Hs. congruence.
  - assert (Ha := Hin a ltac:(left)).
    assert (Hb := Hin b ltac:(right; left)).
    apply NoDup_cons in Hnd as [Hnot _]. rewrite not_elem_of_cons in Hnot.
    destruct Hnot as [Hab _].
    destruct Ha as [-> | ->], Hb as [-> | ->];
      [done | by right | by left | done].
  - exfalso.
    assert (Ha := Hin a ltac:(left)).
    assert (Hb := Hin b ltac:(right; left)).
    assert (Hc := Hin c ltac:(right; right; left)).
    apply NoDup_cons in Hnd as [Hna Hnd].
    apply NoDup_cons in Hnd as [Hnb _].
    apply not_elem_of_cons in Hna as [Hab Hna].
    apply not_elem_of_cons in Hna as [Hac _].
    apply not_elem_of_cons in Hnb as [Hbc _].
    destruct Ha, Hb, Hc; congruence.
Qed.

End ReturnTypes.

(** ** C4 and C5: what the later passes do to the seed *)

Section Passes.
Context `{PyRuntime}.

Lemma target_step_signatures value self target :
  TypeInferrer._function_signatures (TypeInferrer.target_step value self target)
  = TypeInferrer._function_signatures self.
Proof.
  destruct target; simpl; try done.
  by destruct (TypeInferrer.inferable _).
Qed.

Lemma variable_step_signatures self node :
  TypeInferrer._function_signatures (TypeInferrer.variable_step self node)
  = TypeInferrer._function_signatures self.
Proof.
  destruct node; simpl; try done.
  apply (fold_left_preserve
           (fun s => TypeInferrer._function_signatures s
                     = TypeInferrer._function_signatures self)); [|done].
  intros s t _ Hs. by rewrite target_step_signatures.
Qed.

(** The variable pass leaves the function signatures alone. *)
Lemma variable_pass_signatures self tree :
  TypeInferrer._function_signatures
    (TypeInferrer._infer_variable_types self tree)
  = TypeInferrer._function_signatures self.
Proof.
  unfold TypeInferrer._infer_variable_types.
  apply (fold_left_preserve
           (fun s => TypeInferrer._function_signatures s
                     = TypeInferrer._function_signatures self)); [|done].
  intros s n _ Hs. by rewrite variable_step_signatures.
Qed.

Lemma signature_step_variables self node :
  TypeInferrer._variable_types (TypeInferrer.signature_step self node)
  = TypeInferrer._variable_types self.
Proof.
  destruct node; simpl; try done.
  by destruct (TypeInferrer._infer_function_signature _ _).
Qed.

(** The signature pass leaves the variable types alone. *)
Lemma signature_pass_variables self nodes :
  TypeInferrer._variable_types
    (fold_left TypeInferrer.signature_step nodes self)
  = TypeInferrer._variable_types self.
Proof.
  apply (fold_left_preserve
           (fun s => TypeInferrer._variable_types s
                     = TypeInferrer._variable_types self)); [|done].
  intros s n _ Hs. by rewrite signature_step_variables.
Qed.

Lemma collect_step_other self node name :
  def_name node <> Some name ->
  TypeInferrer.get_inferred_function_signature
    (TypeInferrer.collect_step self node) name
  = TypeInferrer.get_inferred_function_signature self name.
Proof.
  intros Hne. unfold TypeInferrer.get_inferred_function_signature.
  destruct node; simpl; try done.
  - destruct returns as [r|]; [|done].
    destruct (str_truthy _); [|done]. simpl.
    apply get_set_ne. simpl in Hne. congruence.
  - destruct node1; try done.
    by destruct (str_truthy _).
Qed.

Lemma signature_step_other self node name :
  def_name node <> Some name ->
  TypeInferrer.get_inferred_function_signature
    (TypeInferrer.signature_step self node) name
  = TypeInferrer.get_inferred_function_signature self name.
Proof.
  intros Hne. unfold TypeInferrer.get_inferred_function_signature.
  destruct node; simpl; try done.
  destruct (TypeInferrer._infer_function_signature _ _); [|done]. simpl.
  apply get_set_ne. simpl in Hne. congruence.
Qed.

Lemma fold_other (step : TypeInferrer.TypeInferrer -> ast.node
                         -> TypeInferrer.TypeInferrer)
    (nodes : list ast.node) self name :
  (forall s n, def_name n <> Some name ->
     TypeInferrer.get_inferred_function_signature (step s n) name
     = TypeInferrer.get_inferred_function_signature s name) ->
  (forall g, g ∈ nodes -> def_name g <> Some name) ->
  TypeInferrer.get_inferred_function_signature (fold_left step nodes self) name
  = TypeInferrer.get_inferred_function_signature self name.
Proof.
  intros Hstep Hnodes.
  apply (fold_left_preserve
           (fun s => TypeInferrer.get_inferred_function_signature s name
                     = TypeInferrer.get_inferred_function_signature self name));
    [|done].
  intros s n Hin Hs. rewrite Hstep; [done | by apply Hnodes].
Qed.

(** C4, the claim as stated fails: for [def f(x) -> int: x.append(1)] the
    seed pass records the return type [int], the signature pass infers the
    argument type [List] for [x] and no return type, and the entry it
    stores replaces the seed entry: no return type is left. *)
Lemma C4_counterexample :
  TypeInferrer.get_inferred_function_signature
    (@TypeInferrer._collect_basic_types sample_runtime
       TypeInferrer.new_inferrer annotated_append) "f"
  = Some {| TypeInferrer.sig_args := None;
            TypeInferrer.sig_returns := Some "int" |}
  /\ TypeInferrer.get_inferred_function_signature
       (@TypeInferrer.infer_types sample_runtime
          TypeInferrer.new_inferrer annotated_append) "f"
     = Some {| TypeInferrer.sig_args := Some [("x", "List")];
               TypeInferrer.sig_returns := None |}.
Proof. split; reflexivity. Qed.

(** C4 (amended). For a function whose return type is annotated (with a
    non-empty type name) and whose name no other function of the file
    bears, the seed pass records the annotated return type; after
    [infer_types] the entry is the signature the signature pass infers for
    the function when it infers one (argument types, a return type, or
    both: the seed entry is replaced as a whole), and the seed entry with
    the annotated return type when it infers none. *)
Theorem C4_annotated_return_type (self0 : TypeInferrer.TypeInferrer)
    (tree : ast.node) (before after : list ast.node) (name : string)
    (args : ast.node) (body decorators : list ast.node)
    (returns : ast.node) (lineno : Z) :
  let func := FunctionDef name args body decorators (Some returns) lineno in
  let seed_entry :=
    {| TypeInferrer.sig_args := None;
       TypeInferrer.sig_returns :=
         Some (TypeInferrer.get_type_name_node returns) |} in
  let seeded :=
    TypeInferrer._collect_basic_types TypeInferrer.new_inferrer tree in
  let reached := fold_left TypeInferrer.signature_step before seeded in
  walk tree = (before ++ func :: after)%list ->
  (forall g, g ∈ (before ++ after)%list -> def_name g <> Some name) ->
  str_truthy (TypeInferrer.get_type_name_node returns) = true ->
  TypeInferrer.get_inferred_function_signature seeded name = Some seed_entry
  /\ TypeInferrer.get_inferred_function_signature
       (TypeInferrer.infer_types self0 tree) name
     = match TypeInferrer._infer_function_signature reached func with
       | Some inferred => Some inferred
       | None => Some seed_entry
       end.
Proof.
  intros func seed_entry seeded reached Hwalk Hothers Htruthy.
  assert (Hbefore : forall g, g ∈ before -> def_name g <> Some name).
  { intros g Hg. apply Hothers. apply elem_of_app. by left. }
  assert (Hafter : forall g, g ∈ after -> def_name g <> Some name).
  { intros g Hg. apply Hothers. apply elem_of_app. by right. }
  assert (Hseed :
    TypeInferrer.get_inferred_function_signature seeded name = Some seed_entry).
  { unfold seeded, TypeInferrer._collect_basic_types.
    rewrite Hwalk, fold_left_app. cbn [fold_left].
    rewrite (fold_other _ after);
      [|intros; by apply collect_step_other|done].
    unfold func. cbn [TypeInferrer.collect_step TypeInferrer._get_type_name
                      TypeInferrer.inferable].
    rewrite Htruthy.
    unfold TypeInferrer.get_inferred_function_signature. simpl.
    apply get_set_eq. }
  split; [done|].
  unfold TypeInferrer.infer_types,
    TypeInferrer.get_inferred_function_signature.
  rewrite variable_pass_signatures.
  fold seeded.
  fold (TypeInferrer.get_inferred_function_signature
          (TypeInferrer._infer_function_signatures seeded tree) name).
  unfold TypeInferrer._infer_function_signatures.
  rewrite Hwalk, fold_left_app. cbn [fold_left].
  rewrite (fold_other _ after);
    [|intros; by apply signature_step_other|done].
  fold reached.
  change (TypeInferrer.signature_step reached func)
    with (match TypeInferrer._infer_function_signature reached func with
          | Some signature =>
              TypeInferrer.set_function_signature reached name signature
          | None => reached
          end).
  destruct (TypeInferrer._infer_function_signature reached func) as [sig|].
  - unfold TypeInferrer.get_inferred_function_signature. simpl.
    apply get_set_eq.
  - unfold reached.
    rewrite (fold_other _ before);
      [done|intros; by apply signature_step_other|done].
Qed.

Lemma variable_pass_targets self nodes :
  fold_left TypeInferrer.variable_step nodes self
  = fold_left assign_step (assignment_targets nodes) self.
Proof.
  revert self. induction nodes as [|n nodes IH]; intros self; [done|].
  unfold assignment_targets in *. simpl.
  rewrite fold_left_app, IH. f_equal.
  destruct n; simpl; try done.
  generalize self. induction targets as [|t ts IHt]; intros s; [done|].
  simpl. by rewrite IHt.
Qed.

Lemma assign_step_other self tv x :
  tv.1 <> Name x ->
  TypeInferrer.get_inferred_variable_type (assign_step self tv) x
  = TypeInferrer.get_inferred_variable_type self x.
Proof.
  destruct tv as [t v]. simpl. intros Hne.
  unfold assign_step, TypeInferrer.get_inferred_variable_type. simpl.
  destruct t; simpl; try done.
  destruct (TypeInferrer.inferable _); [|done]. simpl.
  apply get_set_ne. congruence.
Qed.

Lemma assign_fold_other self tvs x :
  (forall tv, tv ∈ tvs -> tv.1 <> Name x) ->
  TypeInferrer.get_inferred_variable_type (fold_left assign_step tvs self) x
  = TypeInferrer.get_inferred_variable_type self x.
Proof.
  intros Hall.
  apply (fold_left_preserve
           (fun s => TypeInferrer.get_inferred_variable_type s x
                     = TypeInferrer.get_inferred_variable_type self x));
    [|done].
  intros s tv Hin Hs. rewrite assign_step_other; [done | by apply Hall].
Qed.

(** C5, the claim as stated fails: in [x: int = 0] followed by
    [x = obj.attr] the type of the assigned expression is not inferable,
    and the entry for [x] after [infer_types] is still the seed value
    [int]: nothing was stored for the assignment. *)
Lemma C5_counterexample :
  let final :=
    @TypeInferrer.infer_types sample_runtime TypeInferrer.new_inferrer
      annotated_then_attribute in
  TypeInferrer._infer_expression_type final (Attribute (Name "obj") "attr")
  = None
  /\ TypeInferrer.get_inferred_variable_type
       (@TypeInferrer._collect_basic_types sample_runtime
          TypeInferrer.new_inferrer annotated_then_attribute) "x"
     = Some "int"
  /\ TypeInferrer.get_inferred_variable_type final "x" = Some "int".
Proof. cbv zeta. split_and!; reflexivity. Qed.

(** C5 (amended). For an assignment [x = expr] that no later assignment
    to [x] follows in the order of the walk, the entry for [x] after
    [infer_types] is the type of [expr] under the expression rule when
    that type is inferable, whatever the seed pass recorded for [x]; when
    it is not inferable nothing is stored and the entry stays what it was
    before the assignment, which is the seed value if no earlier
    assignment targets [x]. *)
Theorem C5_variable_pass (self0 : TypeInferrer.TypeInferrer)
    (tree : ast.node) (pre post : list (ast.node * ast.node))
    (x : string) (value : ast.node) :
  let seeded :=
    TypeInferrer._collect_basic_types TypeInferrer.new_inferrer tree in
  let before :=
    fold_left assign_step pre
      (TypeInferrer._infer_function_signatures seeded tree) in
  assignment_targets (walk tree) = (pre ++ (Name x, value) :: post)%list ->
  (forall tv, tv ∈ post -> tv.1 <> Name x) ->
  TypeInferrer.get_inferred_variable_type
    (TypeInferrer.infer_types self0 tree) x
  = match TypeInferrer.inferable
            (TypeInferrer._infer_expression_type before value) with
    | Some t => Some t
    | None => TypeInferrer.get_inferred_variable_type before x
    end
  /\ ((forall tv, tv ∈ pre -> tv.1 <> Name x) ->
      TypeInferrer.get_inferred_variable_type before x
      = TypeInferrer.get_inferred_variable_type seeded x).
Proof.
  intros seeded before Htargets Hpost. split.
  - unfold TypeInferrer.infer_types, TypeInferrer._infer_variable_types.
    rewrite variable_pass_targets, Htargets, fold_left_app.
    simpl fold_left at 1. rewrite assign_fold_other by done.
    fold seeded. fold before. unfold assign_step at 1. simpl.
    destruct (TypeInferrer.inferable _) as [t|]; [|done].
    unfold TypeInferrer.get_inferred_variable_type. simpl.
    apply get_set_eq.
  - intros Hpre. unfold before. rewrite assign_fold_other by done.
    unfold TypeInferrer.get_inferred_variable_type,
      TypeInferrer._infer_function_signatures.
    by rewrite signature_pass_variables.
Qed.

End Passes.

(** C4 at [def f() -> int: pass]: the signature pass infers nothing and
    the annotated return type stays. *)
Lemma C4_witness :
  TypeInferrer.get_inferred_function_signature
    (@TypeInferrer.infer_types sample_runtime TypeInferrer.new_inferrer
       annotated_pass) "f"
  = Some {| TypeInferrer.sig_args := None;
            TypeInferrer.sig_returns := Some "int" |}.
Proof.
  refine (proj2 (@C4_annotated_return_type sample_runtime
            TypeInferrer.new_inferrer annotated_pass
            [annotated_pass]
            [arguments [] [] None [] [] None []; Other "Pass" []; Name "int"]
            "f" (arguments [] [] None [] [] None []) [Other "Pass" []] []
            (Name "int") 1 eq_refl _ eq_refl)).
  intros g Hg.
  repeat (apply elem_of_cons in Hg as [->|Hg]); try discriminate.
  by apply elem_of_nil in Hg.
Defined.

(** C5 at [x: int = 0] followed by [x = "s"]: the assignment wins over
    the seed. *)
Lemma C5_witness :
  TypeInferrer.get_inferred_variable_type
    (@TypeInferrer.infer_types sample_runtime TypeInferrer.new_inferrer
       annotated_then_assigned) "x"
  = Some "str".
Proof.
  refine (proj1 (@C5_variable_pass sample_runtime TypeInferrer.new_inferrer
            annotated_then_assigned [] [] "x" (Constant (CStr "s"))
            eq_refl _)).
  intros tv Htv. by apply elem_of_nil in Htv.
Defined.

(** ** The checks of [check_file] *)

Section Checker.
Context `{PyRuntime}.

Import TypeChecker.

(** Case analysis on the callee of a call node. *)
Ltac destruct_callee :=
  match goal with
  | |- context [match ?n with Name _ => _ | _ => _ end] =>
      is_var n; destruct n
  end.

Lemma with_issues_id self : with_issues self (errors self) (warnings self) = self.
Proof. by destruct self. Qed.

Lemma arg_warnings_fold sig file_path args self :
  fold_left (fun self a =>
      if strict (config self) && negb (ASTAnalyzer.ai_has_annotation a)
      then append_warning self
             {| type := "missing_arg_type";
                message := "Missing type annotation for parameter '"
                           ++ ASTAnalyzer.ai_name a ++ "' in function '"
                           ++ ASTAnalyzer.sg_name sig ++ "'";
                line := ASTAnalyzer.sg_lineno sig;
                file := path_str file_path |}
      else self) args self
  = with_issues self (errors self)
      (warnings self ++
       flat_map (fun a =>
         if strict (config self) && negb (ASTAnalyzer.ai_has_annotation a)
         then [arg_type_issue file_path sig a] else []) args).
Proof.
  revert self. induction args as [|a args IH]; intros self.
  - simpl. rewrite app_nil_r. symmetry. apply with_issues_id.
  - cbn [fold_left flat_map]. rewrite IH.
    destruct (strict (config self) && negb (ASTAnalyzer.ai_has_annotation a));
      [|done].
    unfold with_issues, append_warning. simpl. by rewrite <- app_assoc.
Qed.

Lemma check_function_signatures_eq self file_path tree :
  _check_function_signatures self file_path tree
  = with_issues self
      (errors self ++ signature_errors (config self) file_path
                        (ASTAnalyzer.get_function_signatures tree))
      (warnings self ++ signature_warnings (config self) file_path
                          (ASTAnalyzer.get_function_signatures tree)).
Proof.
  unfold _check_function_signatures.
  generalize (ASTAnalyzer.get_function_signatures tree) as sigs.
  intros sigs. revert self. induction sigs as [|sig sigs IH]; intros self.
  - simpl. rewrite !app_nil_r. symmetry. apply with_issues_id.
  - cbn [fold_left]. rewrite arg_warnings_fold, IH.
    unfold signature_errors, signature_warnings, arg_warnings.
    cbn [flat_map].
    destruct (strict (config self)
              && negb (ASTAnalyzer.sg_has_return_annotation sig));
      unfold with_issues, append_error; simpl;
      by rewrite <- ?app_assoc, ?app_nil_r.
Qed.

Lemma check_variable_assignments_eq self file_path tree :
  _check_variable_assignments self file_path tree = self.
Proof.
  unfold _check_variable_assignments.
  generalize (ASTAnalyzer.get_variable_assignments tree) as l.
  induction l as [|a l IH]; [done | exact IH].
Qed.

Lemma check_missing_annotations_eq self file_path analysis :
  _check_missing_annotations self file_path analysis
  = with_issues self
      (errors self ++
       if strict (config self)
       then map (annotation_issue file_path)
                (ASTAnalyzer.missing_annotations analysis)
       else [])
      (warnings self ++
       if strict (config self) then []
       else map (annotation_issue file_path)
                (ASTAnalyzer.missing_annotations analysis)).
Proof.
  unfold _check_missing_annotations.
  generalize (ASTAnalyzer.missing_annotations analysis) as sites.
  intros sites. revert self.
  induction sites as [|[item ln] sites IH]; intros self.
  - simpl. destruct (strict (config self)); rewrite !app_nil_r;
      symmetry; apply with_issues_id.
  - cbn [fold_left]. rewrite IH.
    destruct (strict (config self)) eqn:E;
      unfold with_issues, append_error, append_warning; simpl; rewrite E;
      by rewrite <- ?app_assoc.
Qed.

Lemma check_function_call_eq self file_path node :
  _check_function_call self file_path node
  = with_issues self
      (errors self ++
       if call_mismatch (config self) (inferrer self) node
       then mismatch_issue (inferrer self) file_path node else [])
      (warnings self).
Proof.
  assert (Hid : self = with_issues self (errors self ++ []) (warnings self)).
  { rewrite app_nil_r. symmetry. apply with_issues_id. }
  unfold _check_function_call, call_mismatch, mismatch_issue.
  destruct node; try (by rewrite andb_false_r).
  destruct_callee; try (by rewrite andb_false_r).
  destruct (infer (config self)); [|done]. simpl.
  destruct (TypeInferrer.get_inferred_function_signature _ _)
    as [[[a|] [r|]]|]; simpl; try done;
    by destruct (Nat.eqb _ _).
Qed.

Lemma mismatch_issue_type config inferrer file_path node :
  call_mismatch config inferrer node = true ->
  exists e, mismatch_issue inferrer file_path node = [e]
            /\ type e = "argument_count_mismatch".
Proof.
  unfold call_mismatch, mismatch_issue.
  destruct node; try (by rewrite andb_false_r).
  destruct_callee; try (by rewrite andb_false_r).
  destruct (TypeInferrer.get_inferred_function_signature _ _)
    as [[[a|] r]|]; simpl; try (by rewrite andb_false_r).
  intros _. by eexists.
Qed.

Lemma check_type_mismatches_eq self file_path tree :
  _check_type_mismatches self file_path tree
  = with_issues self
      (errors self ++
       call_errors (config self) (inferrer self) file_path (walk tree))
      (warnings self).
Proof.
  unfold _check_type_mismatches. generalize (walk tree) as nodes.
  intros nodes. revert self. induction nodes as [|n nodes IH]; intros self.
  - simpl. rewrite app_nil_r. symmetry. apply with_issues_id.
  - cbn [fold_left]. rewrite IH. unfold call_errors. cbn [flat_map].
    assert (Hstep :
      match n with
      | Call _ _ _ _ => _check_function_call self file_path n
      | Assign _ _ _ => _check_assignment self file_path n
      | _ => self
      end = _check_function_call self file_path n).
    { by destruct n. }
    rewrite Hstep, check_function_call_eq.
    unfold with_issues. simpl. by rewrite <- app_assoc.
Qed.

(** The issue lists, the inferrer and the return value of [check_file] on
    a file that parses. *)
Lemma check_file_parsed self file_path tree :
  let out := check_file self file_path (Parsed tree) in
  let cfg := config self in
  let sigs := ASTAnalyzer.get_function_signatures tree in
  let sites :=
    ASTAnalyzer.missing_annotations (ASTAnalyzer.analyze_ast cfg tree) in
  config (checker out) = cfg
  /\ inferrer (checker out) = inferrer_for self tree
  /\ errors (checker out)
     = (signature_errors cfg file_path sigs
        ++ (if strict cfg then map (annotation_issue file_path) sites else [])
        ++ call_errors cfg (inferrer_for self tree) file_path (walk tree))%list
  /\ warnings (checker out)
     = (signature_warnings cfg file_path sigs
        ++ (if strict cfg then [] else map (annotation_issue file_path) sites))%list
  /\ returned out = Z.of_nat (length (errors (checker out))).
Proof.
  cbv zeta. unfold check_file. cbn [parse_file].
  set (s1 := if infer (config (clear_issues self)) then _ else _).
  assert (Hs1 : config s1 = config self
                /\ inferrer s1 = inferrer_for self tree
                /\ errors s1 = [] /\ warnings s1 = []).
  { unfold s1, inferrer_for. simpl. by destruct (infer (config self)). }
  destruct Hs1 as (Hc & Hi & He & Hw). clearbody s1.
  rewrite check_function_signatures_eq, check_variable_assignments_eq,
    check_missing_annotations_eq, check_type_mismatches_eq.
  cbn [with_issues config inferrer errors warnings clear_issues].
  rewrite Hc, Hi, He, Hw. cbn [app].
  unfold _auto_fix_file, _report_issues, with_reporter.
  cbn. rewrite ?Hc, ?Hi.
  destruct (fix_ (config self)); cbn; rewrite ?app_assoc; done.
Qed.

End Checker.

(** ** C10: the extractor's sites and strict mode *)

Lemma pre_visit_missing config self node :
  strict config = false ->
  ASTAnalyzer.missing_annotations (pre_visit config self node)
  = ASTAnalyzer.missing_annotations self.
Proof.
  intros Hstrict.
  destruct node; simpl; try done.
  - unfold ASTAnalyzer.visit_FunctionDef. rewrite Hstrict. simpl.
    apply (fold_left_preserve
             (fun w => ASTAnalyzer.missing_annotations w
                       = ASTAnalyzer.missing_annotations self)); done.
  - unfold ASTAnalyzer.visit_Assign.
    apply (fold_left_preserve
             (fun w => ASTAnalyzer.missing_annotations w
                       = ASTAnalyzer.missing_annotations self)); [|done].
    intros w t _ Hw. by destruct t.
  - by destruct node1.
  - unfold ASTAnalyzer.visit_Import.
    apply (fold_left_preserve
             (fun w => ASTAnalyzer.missing_annotations w
                       = ASTAnalyzer.missing_annotations self)); done.
  - unfold ASTAnalyzer.visit_ImportFrom.
    apply (fold_left_preserve
             (fun w => ASTAnalyzer.missing_annotations w
                       = ASTAnalyzer.missing_annotations self)); done.
Qed.

Lemma visit_missing config fuel self node :
  strict config = false ->
  ASTAnalyzer.missing_annotations (ASTAnalyzer.visit config fuel self node)
  = ASTAnalyzer.missing_annotations self.
Proof.
  intros Hstrict. revert self node.
  induction fuel as [|fuel IH]; intros self node; [done|].
  rewrite visit_S.
  apply (fold_left_preserve
           (fun w => ASTAnalyzer.missing_annotations w
                     = ASTAnalyzer.missing_annotations self)).
  - intros w c _ Hw. by rewrite IH.
  - by apply pre_visit_missing.
Qed.

(** Outside strict mode the extractor records no missing-annotation site. *)
Lemma analyze_ast_missing config tree :
  strict config = false ->
  ASTAnalyzer.missing_annotations (ASTAnalyzer.analyze_ast config tree) = [].
Proof.
  intros Hstrict. unfold ASTAnalyzer.analyze_ast.
  by rewrite visit_missing.
Qed.

Section CheckFile.
Context `{PyRuntime}.

Import TypeChecker.

Lemma call_errors_type config inferrer file_path nodes e :
  e ∈ call_errors config inferrer file_path nodes ->
  type e = "argument_count_mismatch".
Proof.
  unfold call_errors. rewrite list_elem_of_In, in_flat_map.
  intros (n & _ & Hin).
  destruct (call_mismatch config inferrer n) eqn:E; [|by destruct Hin].
  destruct (mismatch_issue_type config inferrer file_path n E)
    as (e' & He' & Hty).
  rewrite He' in Hin. destruct Hin as [<-|[]]. done.
Qed.

Lemma call_errors_exists config inferrer file_path nodes :
  (exists e, e ∈ call_errors config inferrer file_path nodes)
  <-> exists n, n ∈ nodes /\ call_mismatch config inferrer n = true.
Proof.
  unfold call_errors. split.
  - intros (e & He). apply list_elem_of_In, in_flat_map in He.
    destruct He as (n & Hn & Hin). exists n.
    split; [by apply list_elem_of_In|].
    by destruct (call_mismatch config inferrer n); [|destruct Hin].
  - intros (n & Hn & E).
    destruct (mismatch_issue_type config inferrer file_path n E)
      as (e & He & _).
    exists e. apply list_elem_of_In, in_flat_map. exists n.
    split; [by apply list_elem_of_In|]. rewrite E, He. by left.
Qed.

Lemma signature_errors_type config file_path sigs e :
  e ∈ signature_errors config file_path sigs ->
  type e = "missing_return_type".
Proof.
  unfold signature_errors. rewrite list_elem_of_In, in_flat_map.
  intros (sig & _ & Hin).
  destruct (strict config && _); [|by destruct Hin].
  by destruct Hin as [<-|[]].
Qed.

Lemma signature_warnings_type config file_path sigs e :
  e ∈ signature_warnings config file_path sigs ->
  type e = "missing_arg_type".
Proof.
  unfold signature_warnings, arg_warnings.
  rewrite list_elem_of_In, in_flat_map.
  intros (sig & _ & Hin). apply in_flat_map in Hin as (a & _ & Hin).
  destruct (strict config && _); [|by destruct Hin].
  by destruct Hin as [<-|[]].
Qed.

Lemma annotation_issues_type file_path sites e :
  e ∈ map (annotation_issue file_path) sites ->
  type e = "missing_annotation".
Proof.
  rewrite list_elem_of_In, in_map_iff. by intros (site & <- & _).
Qed.

Lemma filter_none {A} (P : A -> Prop) `{forall x, Decision (P x)} (l : list A) :
  (forall x, x ∈ l -> ~ P x) -> filter P l = [].
Proof.
  induction l as [|a l IH]; intros Hall; [done|].
  rewrite filter_cons_False by (apply Hall; left).
  apply IH. intros x Hx. apply Hall. by right.
Qed.

Lemma filter_all {A} (P : A -> Prop) `{forall x, Decision (P x)} (l : list A) :
  (forall x, x ∈ l -> P x) -> filter P l = l.
Proof.
  induction l as [|a l IH]; intros Hall; [done|].
  rewrite filter_cons_True by (apply Hall; left).
  f_equal. apply IH. intros x Hx. apply Hall. by right.
Qed.

Lemma mismatch_errors_of_file self file_path tree :
  filter (fun e => type e = "argument_count_mismatch")
         (errors (checker (check_file self file_path (Parsed tree))))
  = call_errors (config self) (inferrer_for self tree) file_path (walk tree).
Proof.
  destruct (check_file_parsed self file_path tree) as (_ & _ & He & _).
  rewrite He, !filter_app.
  rewrite (filter_none _ (signature_errors _ _ _)).
  2: { intros e Hin Hty. apply signature_errors_type in Hin. congruence. }
  rewrite (filter_none _ (if strict (config self) then _ else _)).
  2: { intros e Hin Hty. destruct (strict (config self)).
       - apply annotation_issues_type in Hin. congruence.
       - by apply elem_of_nil in Hin. }
  simpl. apply filter_all. intros e. apply call_errors_type.
Qed.

(** ** C1: a file that does not parse *)

(** C1. When the file fails to parse, [check_file] returns 1 and exactly
    one diagnostic is printed (by [parse_file], on standard error); the
    error and warning lists are left empty, nothing reaches the reporter
    and the inferrer is untouched: extraction, inference, the checks and
    the reporting are all skipped. *)
Theorem C1_parse_failure (self : TypeChecker) (file_path : Path)
    (content : parse_result) :
  fst (parse_file file_path content) = None ->
  let out := check_file self file_path content in
  returned out = 1
  /\ length (stderr out) = 1%nat
  /\ errors (checker out) = []
  /\ warnings (checker out) = []
  /\ reporter (checker out) = reporter self
  /\ inferrer (checker out) = inferrer self
  /\ config (checker out) = config self.
Proof.
  intros Hfail. destruct content as [tree|e|e]; [discriminate| |];
    cbv zeta; unfold check_file; simpl; done.
Qed.

(** ** C8: the call-site check *)

(** C8. A call node makes [_check_function_call] append one
    [argument_count_mismatch] error exactly when inference is enabled, the
    callee is a bare name, the inferrer holds a signature for it that
    records an argument list, and the number of positional arguments
    differs from the length of that list; otherwise it appends nothing.
    The [argument_count_mismatch] errors of [check_file] are those of the
    call nodes of the tree, in the order of the walk, against the
    signatures inferred for this file.  For [def f(): pass] called as
    [f(1, 2)] there is none. *)
Theorem C8_argument_count_mismatch (self : TypeChecker) (file_path : Path)
    (tree : ast.node) :
  let out := check_file self file_path (Parsed tree) in
  let inferred := inferrer (checker out) in
  let is_mismatch := fun e : issue => type e = "argument_count_mismatch" in
  inferred = inferrer_for self tree
  /\ (forall s node,
        errors (_check_function_call s file_path node)
        = (errors s ++
           if call_mismatch (config s) (inferrer s) node
           then mismatch_issue (inferrer s) file_path node else [])%list)
  /\ (forall s node,
        call_mismatch (config s) (inferrer s) node = true ->
        exists e, mismatch_issue (inferrer s) file_path node = [e]
                  /\ is_mismatch e)
  /\ filter is_mismatch (errors (checker out))
     = call_errors (config self) inferred file_path (walk tree)
  /\ ((exists e, e ∈ errors (checker out) /\ is_mismatch e)
      <-> exists node,
            node ∈ walk tree
            /\ call_mismatch (config self) inferred node = true)
  /\ (forall self',
        filter is_mismatch
          (errors (checker (check_file self' file_path
                              (Parsed call_without_signature))))
        = []).
Proof.
  cbv zeta.
  destruct (check_file_parsed self file_path tree) as (_ & Hi & _).
  rewrite Hi. split_and!.
  - done.
  - intros s node. by rewrite check_function_call_eq.
  - intros s node. apply mismatch_issue_type.
  - apply mismatch_errors_of_file.
  - rewrite <- call_errors_exists, <- mismatch_errors_of_file. split.
    + intros (e & Hin & Hty). exists e. by apply list_elem_of_filter.
    + intros (e & Hin). apply list_elem_of_filter in Hin as [Hty Hin]. eauto.
  - intros self'. rewrite mismatch_errors_of_file.
    unfold inferrer_for. destruct (infer (config self')) eqn:E.
    + unfold call_errors, call_mismatch. rewrite E. reflexivity.
    + unfold call_errors, call_mismatch. rewrite E. reflexivity.
Qed.

(** The signature of [f] exists but records no argument list: no
    mismatch for [f(1, 2)]. *)
Example call_without_argument_list_passes :
  let out :=
    @check_file sample_runtime
      (new_checker inferring_config Reporter.new_reporter) sample_path
      (Parsed call_without_argument_list) in
  TypeInferrer.get_inferred_function_signature (inferrer (checker out)) "f"
  = Some {| TypeInferrer.sig_args := None;
            TypeInferrer.sig_returns := Some "int" |}
  /\ errors (checker out) = [] /\ returned out = 0.
Proof. cbv zeta. split_and!; reflexivity. Qed.

(** One argument type is inferred for [g], so [g(1, 2)] is flagged. *)
Example call_with_argument_list_flagged :
  let out :=
    @check_file sample_runtime
      (new_checker inferring_config Reporter.new_reporter) sample_path
      (Parsed call_with_argument_list) in
  errors (checker out)
  = [ {| type := "argument_count_mismatch";
         message := "Function 'g' expects 1 arguments, got 2";
         line := 3; file := "pkg/mod.py" |} ]
  /\ returned out = 1.
Proof. cbv zeta. split; reflexivity. Qed.

(** C10. When strict mode is off the extractor records no
    missing-annotation site for any tree, and no error and no warning of
    [check_file] has the kind [missing_annotation], whatever the file
    holds. *)
Theorem C10_no_missing_annotation_without_strict (self : TypeChecker)
    (file_path : Path) (content : parse_result) :
  strict (config self) = false ->
  let out := check_file self file_path content in
  (forall tree,
     ASTAnalyzer.missing_annotations
       (ASTAnalyzer.analyze_ast (config self) tree) = [])
  /\ (forall i, i ∈ errors (checker out) -> type i <> "missing_annotation")
  /\ (forall i, i ∈ warnings (checker out) -> type i <> "missing_annotation").
Proof.
  intros Hstrict. cbv zeta. split.
  { intros tree. by apply analyze_ast_missing. }
  destruct content as [tree|e|e].
  - destruct (check_file_parsed self file_path tree)
      as (_ & _ & He & Hw & _).
    rewrite He, Hw, Hstrict, analyze_ast_missing by done. simpl.
    rewrite !app_nil_r. split; intros i Hin.
    + apply elem_of_app in Hin as [Hin|Hin].
      * apply signature_errors_type in Hin. congruence.
      * apply call_errors_type in Hin. congruence.
    + apply signature_warnings_type in Hin. congruence.
  - split; intros i Hin; by apply elem_of_nil in Hin.
  - split; intros i Hin; by apply elem_of_nil in Hin.
Qed.

End CheckFile.

(** C1 at a file with a syntax error. *)
Lemma C1_witness :
  let out :=
    @TypeChecker.check_file sample_runtime
      (TypeChecker.new_checker default_config Reporter.new_reporter)
      sample_path (TypeChecker.RaisesSyntaxError "invalid syntax") in
  TypeChecker.returned out = 1
  /\ TypeChecker.stderr out
     = ["Syntax error in pkg/mod.py: invalid syntax"]
  /\ TypeChecker.errors (TypeChecker.checker out) = []
  /\ TypeChecker.warnings (TypeChecker.checker out) = []
  /\ TypeChecker.reporter (TypeChecker.checker out) = Reporter.new_reporter.
Proof.
  pose proof (@C1_parse_failure sample_runtime
                (TypeChecker.new_checker default_config Reporter.new_reporter)
                sample_path (TypeChecker.RaisesSyntaxError "invalid syntax")
                eq_refl) as (Hret & _ & He & Hw & Hr & _).
  cbv zeta. split_and!; [exact Hret | reflexivity | exact He | exact Hw
                        | exact Hr].
Defined.

(** C10 at [def h(x): pass] under the default configuration. *)
Lemma C10_witness :
  let out :=
    @TypeChecker.check_file sample_runtime
      (TypeChecker.new_checker default_config Reporter.new_reporter)
      sample_path (TypeChecker.Parsed unannotated_function) in
  (forall i, i ∈ TypeChecker.errors (TypeChecker.checker out) ->
     TypeChecker.type i <> "missing_annotation")
  /\ (forall i, i ∈ TypeChecker.warnings (TypeChecker.checker out) ->
        TypeChecker.type i <> "missing_annotation").
Proof.
  exact (proj2 (@C10_no_missing_annotation_without_strict sample_runtime
                  (TypeChecker.new_checker default_config
                     Reporter.new_reporter)
                  sample_path (TypeChecker.Parsed unannotated_function)
                  eq_refl)).
Defined.

(** In strict mode the same file yields the sites, as errors. *)
Example strict_mode_reports_sites :
  let strict_config :=
    {| strict := true; infer := false; fix_ := false; format := "text";
       exclude := []; ignore_errors := []; max_line_length := 88;
       python_version := "3.8" |} in
  map TypeChecker.type
    (TypeChecker.errors
       (TypeChecker.checker
          (@TypeChecker.check_file sample_runtime
             (TypeChecker.new_checker strict_config Reporter.new_reporter)
             sample_path (TypeChecker.Parsed unannotated_function))))
  = ["missing_return_type"; "missing_annotation"; "missing_annotation"].
Proof. reflexivity. Qed.

(** * Further properties of the pipeline *)

(** ** Depth-first and breadth-first order *)

Lemma size_pos n : (1 <= size n)%nat.
Proof. destruct n; simpl; lia. Qed.

Lemma flat_map_ext_in {A B} (f g : A -> list B) (l : list A) :
  (forall a, a ∈ l -> f a = g a) -> flat_map f l = flat_map g l.
Proof.
  induction l as [|a l IH]; intros Hfg; simpl; [done|].
  rewrite (Hfg a) by left. f_equal. apply IH. intros b Hb. apply Hfg. by right.
Qed.

Lemma preorder_fuel fuel1 fuel2 n :
  (size n <= fuel1)%nat -> (size n <= fuel2)%nat ->
  preorder fuel1 n = preorder fuel2 n.
Proof.
  revert fuel2 n. induction fuel1 as [|fuel1 IH]; intros fuel2 n H1 H2.
  { pose proof (size_pos n). lia. }
  destruct fuel2 as [|fuel2]; [pose proof (size_pos n); lia|].
  simpl. f_equal. apply flat_map_ext_in.
  intros c Hc. apply size_child_le in Hc. apply IH; lia.
Qed.

Lemma descendants_unfold n :
  descendants n = n :: flat_map descendants (iter_child_nodes n).
Proof.
  unfold descendants at 1. destruct (size n) as [|k] eqn:E.
  { pose proof (size_pos n). lia. }
  simpl. f_equal. apply flat_map_ext_in.
  intros c Hc. apply size_child_le in Hc. apply preorder_fuel; lia.
Qed.

Lemma walk_queue_perm fuel todo :
  (total_size todo <= fuel)%nat ->
  walk_queue fuel todo ≡ₚ flat_map descendants todo.
Proof.
  revert todo. induction fuel as [|fuel IH]; intros todo Hle.
  - destruct todo as [|n rest]; [done|].
    unfold total_size in Hle. cbn [List.map] in Hle.
    change (list_sum (?a :: ?r)) with (a + list_sum r)%nat in Hle.
    pose proof (size_pos n). lia.
  - destruct todo as [|n rest]; [done|].
    cbn [walk_queue flat_map]. rewrite (descendants_unfold n).
    rewrite IH.
    + rewrite flat_map_app. simpl. apply perm_skip, Permutation_app_comm.
    + pose proof (size_children n) as Hsz. unfold total_size in *.
      cbn [List.map] in Hle.
      change (list_sum (?a :: ?r)) with (a + list_sum r)%nat in Hle.
      rewrite List.map_app, list_sum_app. lia.
Qed.

(** [ast.walk] and the visitor reach the same nodes, each once. *)
Lemma walk_perm n : walk n ≡ₚ descendants n.
Proof.
  unfold walk. rewrite walk_queue_perm.
  - simpl. by rewrite app_nil_r.
  - unfold total_size. simpl. lia.
Qed.

Lemma preorder_children fuel t n c :
  n ∈ preorder fuel t -> (size t <= fuel)%nat ->
  c ∈ iter_child_nodes n -> c ∈ preorder fuel t.
Proof.
  revert t. induction fuel as [|fuel IH]; intros t Hn Hfuel Hc.
  { by apply elem_of_nil in Hn. }
  simpl in Hn. apply elem_of_cons in Hn as [->|Hn].
  - simpl. right. apply list_elem_of_In, in_flat_map.
    exists c. split; [by apply list_elem_of_In|].
    apply list_elem_of_In.
    pose proof (size_child_le _ _ Hc). pose proof (size_pos c).
    destruct fuel as [|fuel]; [lia|]. simpl. left.
  - apply list_elem_of_In, in_flat_map in Hn as (d & Hd & Hn).
    apply list_elem_of_In in Hd, Hn.
    simpl. right. apply list_elem_of_In, in_flat_map.
    exists d. split; [by apply list_elem_of_In|].
    apply list_elem_of_In. apply IH; [done| |done].
    apply size_child_le in Hd. lia.
Qed.

(** [ast.walk] yields the children of every node it yields. *)
Lemma walk_children t n c :
  n ∈ walk t -> c ∈ iter_child_nodes n -> c ∈ walk t.
Proof.
  rewrite !walk_perm. intros Hn Hc.
  by apply (preorder_children (size t) t n c).
Qed.

Lemma walk_root t : t ∈ walk t.
Proof. destruct (walk_head t) as [rest ->]. left. Qed.

(** ** The extractor's missing-annotation sites *)

Lemma args_fold_sites config (site : ast.node -> string * Z)
    (l : list ast.node) (w : ASTAnalyzer._ASTWalker) :
  ASTAnalyzer.missing_annotations
    (fold_left (fun self a =>
       if strict config && bool_decide (arg_annotation a = None)
       then ASTAnalyzer.append_missing self (site a) else self) l w)
  = (ASTAnalyzer.missing_annotations w
     ++ flat_map (fun a =>
          if strict config && bool_decide (arg_annotation a = None)
          then [site a] else []) l)%list.
Proof.
  revert w. induction l as [|a l IH]; intros w; simpl;
    [by rewrite app_nil_r|].
  rewrite IH. destruct (strict config && _); simpl; by rewrite <- ?app_assoc.
Qed.

Lemma fold_keeps_sites {A} (f : ASTAnalyzer._ASTWalker -> A
                                -> ASTAnalyzer._ASTWalker)
    (l : list A) (self : ASTAnalyzer._ASTWalker) :
  (forall w a, ASTAnalyzer.missing_annotations (f w a)
               = ASTAnalyzer.missing_annotations w) ->
  ASTAnalyzer.missing_annotations (fold_left f l self)
  = ASTAnalyzer.missing_annotations self.
Proof.
  intros Hf.
  apply (fold_left_preserve
           (fun w => ASTAnalyzer.missing_annotations w
                     = ASTAnalyzer.missing_annotations self)); [|done].
  intros w a _ Hw. by rewrite Hf.
Qed.

Lemma pre_visit_sites config self node :
  ASTAnalyzer.missing_annotations (pre_visit config self node)
  = (ASTAnalyzer.missing_annotations self ++ function_sites config node)%list.
Proof.
  destruct node; simpl; rewrite ?app_nil_r; try done.
  - unfold ASTAnalyzer.visit_FunctionDef.
    rewrite (args_fold_sites config
               (fun a => ("parameter '" ++ arg_arg a ++ "' in function '"
                          ++ name ++ "'", lineno))).
    destruct (strict config && bool_decide (returns = None)); simpl;
      by rewrite <- ?app_assoc.
  - apply fold_keeps_sites. intros w t. by destruct t.
  - by destruct node1.
  - by apply fold_keeps_sites.
  - by apply fold_keeps_sites.
Qed.

Lemma visit_sites config fuel self node :
  ASTAnalyzer.missing_annotations (ASTAnalyzer.visit config fuel self node)
  = (ASTAnalyzer.missing_annotations self
     ++ flat_map (function_sites config) (preorder fuel node))%list.
Proof.
  revert self node. induction fuel as [|fuel IH]; intros self node.
  { simpl. by rewrite app_nil_r. }
  rewrite visit_S. cbn [preorder flat_map].
  rewrite app_assoc, <- pre_visit_sites.
  generalize (pre_visit config self node) as w.
  generalize (iter_child_nodes node) as cs.
  induction cs as [|c cs IHcs]; intros w; simpl; [by rewrite app_nil_r|].
  rewrite IHcs, IH, flat_map_app. by rewrite app_assoc.
Qed.

(** X7. The sites the extractor collects are those of the function
    definitions of the tree, in depth-first order: for each function
    first its missing return annotation, then its unannotated parameters
    in order, all carrying the line of the [def]. *)
Theorem analyze_ast_sites (config : Config) (tree : ast.node) :
  ASTAnalyzer.missing_annotations (ASTAnalyzer.analyze_ast config tree)
  = flat_map (function_sites config) (descendants tree).
Proof. unfold ASTAnalyzer.analyze_ast. by rewrite visit_sites. Qed.

(** ** What [check_file] depends on, and what it returns *)

Section CheckFileMore.
Context `{PyRuntime}.

Import TypeChecker.

Lemma call_errors_no_infer config inferrer file_path nodes :
  infer config = false -> call_errors config inferrer file_path nodes = [].
Proof.
  intros E. unfold call_errors, call_mismatch. rewrite E. simpl.
  induction nodes as [|n nodes IH]; [done | exact IH].
Qed.

Lemma flat_map_nil {A B} (f : A -> list B) (l : list A) :
  (forall a, f a = []) -> flat_map f l = [].
Proof.
  intros Hf. induction l as [|a l IH]; simpl; [done|]. by rewrite Hf, IH.
Qed.

Lemma signature_errors_not_strict config file_path sigs :
  strict config = false -> signature_errors config file_path sigs = [].
Proof.
  intros E. unfold signature_errors. apply flat_map_nil.
  intros sig. by rewrite E.
Qed.

Lemma signature_warnings_not_strict config file_path sigs :
  strict config = false -> signature_warnings config file_path sigs = [].
Proof.
  intros E. unfold signature_warnings, arg_warnings. apply flat_map_nil.
  intros sig. apply flat_map_nil. intros a. by rewrite E.
Qed.

Lemma function_sites_strict config config' node :
  strict config = strict config' ->
  function_sites config node = function_sites config' node.
Proof. intros E. unfold function_sites. by rewrite E. Qed.

Lemma analyze_ast_strict config config' tree :
  strict config = strict config' ->
  ASTAnalyzer.missing_annotations (ASTAnalyzer.analyze_ast config tree)
  = ASTAnalyzer.missing_annotations (ASTAnalyzer.analyze_ast config' tree).
Proof.
  intros E. unfold ASTAnalyzer.analyze_ast. rewrite !visit_sites.
  f_equal. apply flat_map_ext_in.
  intros n _. by apply function_sites_strict.
Qed.

Lemma call_errors_config self self' file_path tree :
  infer (config self) = infer (config self') ->
  call_errors (config self) (inferrer_for self tree) file_path (walk tree)
  = call_errors (config self') (inferrer_for self' tree) file_path (walk tree).
Proof.
  intros E. destruct (infer (config self)) eqn:E1.
  - unfold inferrer_for. rewrite E1, <- E.
    unfold call_errors, call_mismatch. by rewrite E1, <- E.
  - rewrite !call_errors_no_infer; done.
Qed.

Lemma parsed_findings_options self self' file_path tree :
  strict (config self) = strict (config self') ->
  infer (config self) = infer (config self') ->
  errors (checker (check_file self file_path (Parsed tree)))
  = errors (checker (check_file self' file_path (Parsed tree)))
  /\ warnings (checker (check_file self file_path (Parsed tree)))
     = warnings (checker (check_file self' file_path (Parsed tree))).
Proof.
  intros Es Ei.
  destruct (check_file_parsed self file_path tree)
    as (_ & _ & He & Hw & _).
  destruct (check_file_parsed self' file_path tree)
    as (_ & _ & He' & Hw' & _).
  split.
  - rewrite He, He'. unfold signature_errors.
    rewrite (analyze_ast_strict _ (config self')) by done.
    rewrite (call_errors_config self self') by done. by rewrite Es.
  - rewrite Hw, Hw'. unfold signature_warnings, arg_warnings.
    rewrite (analyze_ast_strict _ (config self')) by done. by rewrite Es.
Qed.




(** X3. The return value is the length of the error list exactly when the
    file parses; on a parse failure it is 1 although the error list and
    [get_error_count] stay at 0. *)
Theorem check_file_return_and_count (self : TypeChecker) (file_path : Path)
    (content : parse_result) :
  let out := check_file self file_path content in
  match content with
  | Parsed _ => returned out = get_error_count (checker out)
  | _ => returned out = 1 /\ get_error_count (checker out) = 0
  end
  /\ 0 <= returned out.
Proof.
  cbv zeta. destruct content as [tree|e|e]; [|done|done].
  destruct (check_file_parsed self file_path tree) as (_ & _ & _ & _ & Hr).
  unfold get_error_count. rewrite Hr. split; [done | lia].
Qed.

(** X4. The error list is grouped by check: first the [missing_return_type]
    errors, then the [missing_annotation] errors, then the
    [argument_count_mismatch] errors.  The first two groups are empty
    unless [strict] is on, the third unless [infer] is on.  Every warning
    is a [missing_arg_type] warning, and there is none unless [strict] is
    on: a [missing_annotation] is never reported as a warning. *)
Theorem check_file_issue_kinds (self : TypeChecker) (file_path : Path)
    (content : parse_result) :
  let out := check_file self file_path content in
  (exists returns annotations calls,
     errors (checker out) = (returns ++ annotations ++ calls)%list
     /\ Forall (fun e => type e = "missing_return_type") returns
     /\ Forall (fun e => type e = "missing_annotation") annotations
     /\ Forall (fun e => type e = "argument_count_mismatch") calls
     /\ (strict (config self) = false -> returns = [] /\ annotations = [])
     /\ (infer (config self) = false -> calls = []))
  /\ Forall (fun w => type w = "missing_arg_type") (warnings (checker out))
  /\ (strict (config self) = false -> warnings (checker out) = []).
Proof.
  cbv zeta. destruct content as [tree|e|e].
  2,3: (split; [exists [], [], []|]; simpl; split_and!; done).
  destruct (check_file_parsed self file_path tree)
    as (_ & _ & He & Hw & _).
  assert (Hsw : Forall (fun w => type w = "missing_arg_type")
                  (signature_warnings (config self) file_path
                     (ASTAnalyzer.get_function_signatures tree))).
  { apply Forall_forall. intros w. apply signature_warnings_type. }
  split; [|split].
  - eexists _, _, _. split; [exact He|]. split_and!.
    + apply Forall_forall. intros e. apply signature_errors_type.
    + destruct (strict (config self)); [|done].
      apply Forall_forall. intros e. apply annotation_issues_type.
    + apply Forall_forall. intros e. apply call_errors_type.
    + intros Es. rewrite Es. split; [|done].
      by apply signature_errors_not_strict.
    + intros Ei. by apply call_errors_no_infer.
  - rewrite Hw. destruct (strict (config self)) eqn:Es.
    + by rewrite app_nil_r.
    + by rewrite analyze_ast_missing, app_nil_r.
  - intros Es.
    by rewrite Hw, Es, analyze_ast_missing,
      signature_warnings_not_strict by done.
Qed.

End CheckFileMore.

(** ** Strict mode reports every finding of the signature check twice *)

Section StrictMode.
Context `{PyRuntime}.

Import TypeChecker.

Lemma arg_sites_count config file_path sig (site : ast.node -> string * Z)
    (args : list ast.node) :
  length (flat_map (fun a =>
            if strict config && bool_decide (arg_annotation a = None)
            then [site a] else []) args)
  = length (flat_map (fun a =>
              if strict config && negb (ASTAnalyzer.ai_has_annotation a)
              then [arg_type_issue file_path sig a] else [])
            (map (fun a =>
               {| ASTAnalyzer.ai_name := arg_arg a;
                  ASTAnalyzer.ai_has_annotation :=
                    bool_decide (is_Some (arg_annotation a));
                  ASTAnalyzer.ai_annotation :=
                    match arg_annotation a with
                    | Some ann => ASTAnalyzer._get_type_name (Some ann)
                    | None => None
                    end |}) args)).
Proof.
  induction args as [|a args IH]; [done|]. simpl.
  rewrite !length_app, IH. f_equal.
  destruct (strict config); [|done]. simpl.
  by destruct (arg_annotation a).
Qed.

Lemma sites_count config file_path (nodes : list ast.node) :
  let sigs :=
    flat_map (fun node =>
      match node with
      | FunctionDef name args _ _ returns lineno =>
          [ {| ASTAnalyzer.sg_name := name;
               ASTAnalyzer.sg_lineno := lineno;
               ASTAnalyzer.sg_args := ASTAnalyzer._extract_function_args args;
               ASTAnalyzer.sg_returns :=
                 ASTAnalyzer._extract_return_type returns;
               ASTAnalyzer.sg_has_return_annotation :=
                 bool_decide (is_Some returns) |} ]
      | _ => []
      end) nodes in
  length (flat_map (function_sites config) nodes)
  = (length (signature_errors config file_path sigs)
     + length (signature_warnings config file_path sigs))%nat.
Proof.
  cbv zeta. induction nodes as [|n nodes IH]; [done|].
  cbn [flat_map]. unfold signature_errors, signature_warnings in *.
  rewrite !flat_map_app, !length_app, IH.
  assert (Hn :
    length (function_sites config n)
    = (length (flat_map (fun sig =>
         if strict config
            && negb (ASTAnalyzer.sg_has_return_annotation sig)
         then [return_type_issue file_path sig] else [])
         match n with
         | FunctionDef name args _ _ returns lineno =>
             [ {| ASTAnalyzer.sg_name := name;
                  ASTAnalyzer.sg_lineno := lineno;
                  ASTAnalyzer.sg_args :=
                    ASTAnalyzer._extract_function_args args;
                  ASTAnalyzer.sg_returns :=
                    ASTAnalyzer._extract_return_type returns;
                  ASTAnalyzer.sg_has_return_annotation :=
                    bool_decide (is_Some returns) |} ]
         | _ => []
         end)
       + length (flat_map (arg_warnings config file_path)
           match n with
           | FunctionDef name args _ _ returns lineno =>
               [ {| ASTAnalyzer.sg_name := name;
                    ASTAnalyzer.sg_lineno := lineno;
                    ASTAnalyzer.sg_args :=
                      ASTAnalyzer._extract_function_args args;
                    ASTAnalyzer.sg_returns :=
                      ASTAnalyzer._extract_return_type returns;
                    ASTAnalyzer.sg_has_return_annotation :=
                      bool_decide (is_Some returns) |} ]
           | _ => []
           end))%nat).
  { destruct n; try done.
    cbn [function_sites flat_map]. rewrite !app_nil_r, length_app.
    unfold arg_warnings, ASTAnalyzer._extract_function_args.
    cbn [ASTAnalyzer.sg_args ASTAnalyzer.sg_has_return_annotation].
    erewrite (arg_sites_count config file_path). f_equal.
    destruct (strict config); [|done]. simpl. by destruct returns. }
  lia.
Qed.

Lemma flat_map_perm_length {A B} (f : A -> list B) (l l' : list A) :
  l ≡ₚ l' -> length (flat_map f l) = length (flat_map f l').
Proof.
  intros Hp. induction Hp; simpl; rewrite ?length_app; lia.
Qed.

(** X5. In strict mode every finding of the signature check is reported a
    second time as a [missing_annotation] error: the number of
    [missing_annotation] errors is the number of [missing_return_type]
    errors plus the number of ([missing_arg_type]) warnings. *)
Theorem strict_findings_reported_twice (self : TypeChecker)
    (file_path : Path) (tree : ast.node) :
  strict (config self) = true ->
  let out := check_file self file_path (Parsed tree) in
  length (filter (fun e => type e = "missing_annotation")
                 (errors (checker out)))
  = (length (filter (fun e => type e = "missing_return_type")
                    (errors (checker out)))
     + length (warnings (checker out)))%nat.
Proof.
  intros Es. cbv zeta.
  destruct (check_file_parsed self file_path tree)
    as (_ & _ & He & Hw & _).
  rewrite He, Hw, Es, app_nil_r, !filter_app.
  rewrite (filter_none (fun e => type e = "missing_annotation")
             (signature_errors _ _ _)).
  2: { intros e Hin Hty. apply signature_errors_type in Hin. congruence. }
  rewrite (filter_none (fun e => type e = "missing_annotation")
             (call_errors _ _ _ _)).
  2: { intros e Hin Hty. apply call_errors_type in Hin. congruence. }
  rewrite (filter_all (fun e => type e = "missing_annotation")
             (map _ _)).
  2: { intros e. apply annotation_issues_type. }
  rewrite (filter_all (fun e => type e = "missing_return_type")
             (signature_errors _ _ _)).
  2: { intros e. apply signature_errors_type. }
  rewrite (filter_none (fun e => type e = "missing_return_type")
             (map _ _)).
  2: { intros e Hin Hty. apply annotation_issues_type in Hin. congruence. }
  rewrite (filter_none (fun e => type e = "missing_return_type")
             (call_errors _ _ _ _)).
  2: { intros e Hin Hty. apply call_errors_type in Hin. congruence. }
  simpl. rewrite !app_nil_r, length_map.
  unfold ASTAnalyzer.analyze_ast. rewrite visit_sites. simpl.
  fold (descendants tree).
  rewrite (flat_map_perm_length _ (descendants tree) (walk tree))
    by (symmetry; apply walk_perm).
  apply (sites_count (config self) file_path (walk tree)).
Qed.

End StrictMode.

(** ** What reaches the reporter *)

Section Reporting.
Context `{PyRuntime}.

Import TypeChecker.









End Reporting.

(** ** The inference maps *)

Lemma get_set_inv {V} (d : dict V) k k' v x :
  PyDict.get (PyDict.set d k v) k' = Some x ->
  (k = k' /\ x = v) \/ PyDict.get d k' = Some x.
Proof.
  rewrite get_set. destruct (String.eqb k k') eqn:E.
  - apply String.eqb_eq in E. intros [= <-]. by left.
  - by right.
Qed.

Lemma set_elem {V} (d : dict V) k v k' v' :
  (k', v') ∈ PyDict.set d k v -> (k' = k /\ v' = v) \/ (k', v') ∈ d.
Proof.
  induction d as [|[k0 v0] d IH]; simpl.
  - intros Hin. apply list_elem_of_singleton in Hin as [= -> ->]. by left.
  - destruct (String.eqb k0 k) eqn:E.
    + apply String.eqb_eq in E. subst k0. intros Hin.
      apply elem_of_cons in Hin as [[= -> ->]|Hin]; [by left|].
      right. by right.
    + intros Hin. apply elem_of_cons in Hin as [[= -> ->]|Hin].
      * right. left.
      * destruct (IH Hin) as [?|?]; [by left|]. right. by right.
Qed.

Lemma set_keys {V} (d : dict V) k v :
  PyDict.keys (PyDict.set d k v)
  = if bool_decide (k ∈ PyDict.keys d) then PyDict.keys d
    else (PyDict.keys d ++ [k])%list.
Proof.
  unfold PyDict.keys. induction d as [|[k0 v0] d IH]; simpl; [done|].
  destruct (String.eqb k0 k) eqn:E; simpl.
  - apply String.eqb_eq in E. subst k0.
    rewrite bool_decide_eq_true_2 by left. done.
  - apply String.eqb_neq in E. rewrite IH.
    destruct (bool_decide (k ∈ map fst d)) eqn:Ed.
    + apply bool_decide_eq_true_1 in Ed.
      rewrite bool_decide_eq_true_2 by (by right). done.
    + apply bool_decide_eq_false_1 in Ed.
      rewrite bool_decide_eq_false_2; [done|].
      intros Hin. apply elem_of_cons in Hin as [->|Hin]; done.
Qed.

(** Assignment to a key never duplicates a key. *)
Lemma set_NoDup {V} (d : dict V) k v :
  NoDup (PyDict.keys d) -> NoDup (PyDict.keys (PyDict.set d k v)).
Proof.
  intros Hnd. rewrite set_keys.
  destruct (bool_decide (k ∈ PyDict.keys d)) eqn:E; [done|].
  apply bool_decide_eq_false_1 in E.
  apply NoDup_app. split_and!; [done | | apply NoDup_singleton].
  intros x Hx Hx'. apply list_elem_of_singleton in Hx'. by subst.
Qed.

Lemma last_value_elem {V} (items : list (string * V)) k v :
  last_value items k = Some v -> (k, v) ∈ items.
Proof.
  induction items as [|[k' v'] items IH]; simpl; [done|].
  destruct (last_value items k) as [v0|].
  - intros [= ->]. right. by apply IH.
  - destruct (String.eqb k' k) eqn:E; [|done].
    apply String.eqb_eq in E. subst. intros [= ->]. left.
Qed.

Lemma method_types_closed :
  Forall (fun kv : string * string => kv.2 ∈ ["List"; "Dict"; "Set"; "str"])
         TypeInferrer.method_type_items.
Proof.
  unfold TypeInferrer.method_type_items.
  repeat (apply Forall_cons; split;
          [simpl; repeat (first [by apply list_elem_of_here
                                |apply list_elem_of_further])|]).
  apply Forall_nil_2.
Qed.

Lemma infer_type_from_method_closed name t :
  TypeInferrer._infer_type_from_method name = Some t ->
  t ∈ ["List"; "Dict"; "Set"; "str"].
Proof.
  unfold TypeInferrer._infer_type_from_method, TypeInferrer.method_type_map.
  rewrite display_get. intros Hl. apply last_value_elem in Hl.
  pose proof method_types_closed as Hall.
  rewrite Forall_forall in Hall. exact (Hall _ Hl).
Qed.

Lemma infer_type_from_operation_closed op t :
  TypeInferrer._infer_type_from_operation op = Some t ->
  t ∈ ["int"; "Any"].
Proof.
  destruct op; simpl; intros [= <-];
    repeat (first [by apply list_elem_of_here | apply list_elem_of_further]).
Qed.

Lemma argument_types_step names (d : dict string) (node : ast.node) :
  argument_types_ok names d ->
  argument_types_ok names
    match node with
    | Call (Attribute (Name arg_name) attr) _ _ _ =>
        if bool_decide (arg_name ∈ names) then
          match TypeInferrer.inferable
                  (TypeInferrer._infer_type_from_method attr) with
          | Some method_type => PyDict.set d arg_name method_type
          | None => d
          end
        else d
    | BinOp (Name arg_name) op _ =>
        if bool_decide (arg_name ∈ names) then
          match TypeInferrer.inferable
                  (TypeInferrer._infer_type_from_operation op) with
          | Some op_type => PyDict.set d arg_name op_type
          | None => d
          end
        else d
    | _ => d
    end.
Proof.
  intros Hd.
  assert (Hset : forall k v,
    k ∈ names -> v ∈ ["List"; "Dict"; "Set"; "str"; "int"; "Any"] ->
    argument_types_ok names (PyDict.set d k v)).
  { intros k v Hk Hv. destruct Hd as [Hnd Hall]. split.
    - by apply set_NoDup.
    - intros k' v' Hin. apply set_elem in Hin as [[-> ->]|Hin]; [done|].
      by apply Hall. }
  destruct node as [| | | | | | | |callee ? ? ?|lhs op ?| | | | | | | | | | | | |];
    try done.
  - destruct callee as [| |obj attr| | | | | | | | | | | | | | | | | | | |];
      try done.
    destruct obj; try done.
    destruct (bool_decide _) eqn:Ein; [|done].
    apply bool_decide_eq_true_1 in Ein.
    destruct (TypeInferrer.inferable _) as [t|] eqn:Et; [|done].
    apply inferable_truthy in Et as [Et _].
    apply infer_type_from_method_closed in Et.
    apply Hset; [done|].
    repeat (apply elem_of_cons in Et as [->|Et]);
      repeat (first [by apply list_elem_of_here | apply list_elem_of_further]).
    by apply elem_of_nil in Et.
  - destruct lhs; try done.
    destruct (bool_decide _) eqn:Ein; [|done].
    apply bool_decide_eq_true_1 in Ein.
    destruct (TypeInferrer.inferable _) as [t|] eqn:Et; [|done].
    apply inferable_truthy in Et as [Et _].
    apply infer_type_from_operation_closed in Et.
    apply Hset; [done|].
    repeat (apply elem_of_cons in Et as [->|Et]);
      repeat (first [by apply list_elem_of_here | apply list_elem_of_further]).
    by apply elem_of_nil in Et.
Qed.

(** X11. An inferred argument map is never empty; its keys are parameters of
    the function, each at most once, so it has at most as many entries as
    the function has parameters; and every inferred argument type is one
    of [List], [Dict], [Set], [str], [int], [Any]. *)
Theorem infer_argument_types_sound (func : ast.node) (d : dict string) :
  TypeInferrer._infer_argument_types func = Some d ->
  d <> []
  /\ NoDup (PyDict.keys d)
  /\ (forall k v, (k, v) ∈ d ->
        k ∈ map arg_arg (function_args func)
        /\ v ∈ ["List"; "Dict"; "Set"; "str"; "int"; "Any"])
  /\ (PyDict.len d <= length (function_args func))%nat.
Proof.
  unfold TypeInferrer._infer_argument_types.
  set (names := map arg_arg (function_args func)).
  set (step := fun (arg_types : dict string) (node : ast.node) => _).
  assert (Hok : argument_types_ok names
                  (fold_left step (walk func) PyDict.empty)).
  { apply (fold_left_preserve (argument_types_ok names)).
    - intros a b _ Ha. by apply argument_types_step.
    - split; [apply NoDup_nil_2|]. intros k v Hin.
      by apply elem_of_nil in Hin. }
  destruct (fold_left step (walk func) PyDict.empty) as [|kv d'] eqn:E;
    [done|].
  simpl. intros [= <-]. destruct Hok as [Hnd Hall].
  split_and!; [done | done | done |].
  unfold PyDict.len.
  replace (length (kv :: d')) with (length (PyDict.keys (kv :: d')))
    by (unfold PyDict.keys; apply length_map).
  replace (length (function_args func)) with (length names)
    by (unfold names; apply length_map).
  apply submseteq_length, NoDup_submseteq; [done|].
  intros k Hk. unfold PyDict.keys in Hk.
  apply list_elem_of_fmap in Hk as ([k' v] & -> & Hin).
  by apply Hall in Hin as [? _].
Qed.

(** [def g(x): x.append(0)]: one parameter, one inferred type. *)
Lemma infer_argument_types_sound_witness :
  [("x", "List")] <> []
  /\ NoDup (PyDict.keys [("x", "List")])
  /\ (forall k v, (k, v) ∈ [("x", "List")] ->
        k ∈ ["x"] /\ v ∈ ["List"; "Dict"; "Set"; "str"; "int"; "Any"])
  /\ (1 <= 1)%nat.
Proof.
  exact (infer_argument_types_sound
           (FunctionDef "g" (arguments [] [arg "x" None] None [] [] None [])
              [ Other "Expr"
                  [ Call (Attribute (Name "x") "append")
                      [Constant (CInt 0)] [] 2 ] ]
              [] None 1)
           [("x", "List")] eq_refl).
Defined.

Section InferenceMaps.
Context `{PyRuntime}.

Lemma maps_filled_variable self x t :
  maps_filled self -> str_truthy t = true ->
  maps_filled (TypeInferrer.set_variable_type self x t).
Proof.
  intros [Hv Hs] Ht. split; [|exact Hs].
  intros y t' Hy. unfold TypeInferrer.get_inferred_variable_type in Hy.
  simpl in Hy. apply get_set_inv in Hy as [[_ ->]|Hy]; [done|].
  by apply (Hv y).
Qed.

Lemma maps_filled_signature self f s :
  maps_filled self -> signature_filled s ->
  maps_filled (TypeInferrer.set_function_signature self f s).
Proof.
  intros [Hv Hs] Hf. split; [exact Hv|].
  intros g s' Hg. unfold TypeInferrer.get_inferred_function_signature in Hg.
  simpl in Hg. apply get_set_inv in Hg as [[_ ->]|Hg]; [done|].
  by apply (Hs g).
Qed.

Lemma infer_argument_types_nonempty func (d : dict string) :
  TypeInferrer._infer_argument_types func = Some d -> d <> [].
Proof.
  unfold TypeInferrer._infer_argument_types.
  destruct (fold_left _ (walk func) PyDict.empty); [done|].
  simpl. by intros [= <-].
Qed.

Lemma infer_function_signature_filled self func s :
  TypeInferrer._infer_function_signature self func = Some s ->
  signature_filled s.
Proof.
  unfold TypeInferrer._infer_function_signature.
  destruct (TypeInferrer.sig_truthy _) eqn:Et; [|done].
  intros [= <-]. split; [done|]. simpl. split.
  - intros d Hd. by apply infer_argument_types_nonempty in Hd.
  - intros r Hr. by apply inferable_truthy in Hr as [_ ?].
Qed.

Lemma collect_step_filled self node :
  maps_filled self -> maps_filled (TypeInferrer.collect_step self node).
Proof.
  intros Hf. destruct node; try done; simpl.
  - destruct returns as [r|]; [|done].
    destruct (str_truthy _) eqn:E; [|done].
    apply maps_filled_signature; [done|].
    split; [done|]. simpl. split; [done|]. by intros r' [= <-].
  - destruct node1; try done.
    destruct (str_truthy _) eqn:E; [|done].
    by apply maps_filled_variable.
Qed.

Lemma signature_step_filled self node :
  maps_filled self -> maps_filled (TypeInferrer.signature_step self node).
Proof.
  intros Hf. destruct node; try done.
  cbn [TypeInferrer.signature_step].
  destruct (TypeInferrer._infer_function_signature _ _) as [s|] eqn:E;
    [|done].
  apply maps_filled_signature; [done|].
  by apply infer_function_signature_filled in E.
Qed.

Lemma target_step_filled value self target :
  maps_filled self -> maps_filled (TypeInferrer.target_step value self target).
Proof.
  intros Hf. destruct target; try done. simpl.
  destruct (TypeInferrer.inferable _) as [t|] eqn:E; [|done].
  apply inferable_truthy in E as [_ ?]. by apply maps_filled_variable.
Qed.

Lemma infer_types_filled (self : TypeInferrer.TypeInferrer)
    (tree : ast.node) :
  maps_filled (TypeInferrer.infer_types self tree).
Proof.
  unfold TypeInferrer.infer_types, TypeInferrer._infer_variable_types,
    TypeInferrer._infer_function_signatures,
    TypeInferrer._collect_basic_types.
  apply (fold_left_preserve maps_filled).
  { intros s n _ Hs. destruct n; try done. simpl.
    apply (fold_left_preserve maps_filled); [|done].
    intros s' t _ Hs'. by apply target_step_filled. }
  apply (fold_left_preserve maps_filled).
  { intros s n _ Hs. by apply signature_step_filled. }
  apply (fold_left_preserve maps_filled).
  { intros s n _ Hs. by apply collect_step_filled. }
  split; intros ? ? Hget; discriminate.
Qed.

(** X12. After [infer_types] no entry of the maps is empty: every variable
    type and every recorded return type is a non-empty string, every
    signature has at least one of its two keys, and a recorded argument
    map has at least one entry.  A function or variable without inferable
    information is absent, never present but empty. *)
Theorem infer_types_maps_filled (self : TypeInferrer.TypeInferrer)
    (tree : ast.node) :
  let final := TypeInferrer.infer_types self tree in
  (forall x t,
     TypeInferrer.get_inferred_variable_type final x = Some t -> t <> EmptyString)
  /\ (forall f s,
        TypeInferrer.get_inferred_function_signature final f = Some s ->
        (TypeInferrer.sig_args s <> None \/ TypeInferrer.sig_returns s <> None)
        /\ TypeInferrer.sig_args s <> Some []
        /\ TypeInferrer.sig_returns s <> Some EmptyString).
Proof.
  cbv zeta. destruct (infer_types_filled self tree) as [Hv Hs]. split.
  - intros x t Hx ->. by apply Hv in Hx.
  - intros f s Hf. destruct (Hs f s Hf) as (Ht & Ha & Hr). split_and!.
    + unfold TypeInferrer.sig_truthy in Ht.
      destruct (TypeInferrer.sig_args s); [by left|].
      destruct (TypeInferrer.sig_returns s); [by right | done].
    + intros E. by apply Ha in E.
    + intros E. by apply Hr in E.
Qed.

Lemma names_bound_variable tree self x t :
  names_bound tree self -> binds_variable tree x ->
  names_bound tree (TypeInferrer.set_variable_type self x t).
Proof.
  intros [Hv Hs] Hx. split; [|exact Hs].
  intros y t' Hy. unfold TypeInferrer.get_inferred_variable_type in Hy.
  simpl in Hy. apply get_set_inv in Hy as [[<- _]|Hy]; [done|].
  by apply (Hv y t').
Qed.

Lemma names_bound_signature tree self f s :
  names_bound tree self -> defines_function tree f ->
  names_bound tree (TypeInferrer.set_function_signature self f s).
Proof.
  intros [Hv Hs] Hf. split; [exact Hv|].
  intros g s' Hg. unfold TypeInferrer.get_inferred_function_signature in Hg.
  simpl in Hg. apply get_set_inv in Hg as [[<- _]|Hg]; [done|].
  by apply (Hs g s').
Qed.

Lemma collect_step_bound tree self node :
  node ∈ walk tree -> names_bound tree self ->
  names_bound tree (TypeInferrer.collect_step self node).
Proof.
  intros Hin Hb. destruct node; try done; simpl.
  - destruct returns as [r|]; [|done].
    destruct (str_truthy _); [|done].
    apply names_bound_signature; [done|]. by eexists.
  - destruct node1; try done.
    destruct (str_truthy _); [|done].
    apply names_bound_variable; [done|]. by eexists.
Qed.

Lemma signature_step_bound tree self node :
  node ∈ walk tree -> names_bound tree self ->
  names_bound tree (TypeInferrer.signature_step self node).
Proof.
  intros Hin Hb. destruct node; try done.
  cbn [TypeInferrer.signature_step].
  destruct (TypeInferrer._infer_function_signature _ _); [|done].
  apply names_bound_signature; [done|]. by eexists.
Qed.

Lemma variable_step_bound tree self node :
  node ∈ walk tree -> names_bound tree self ->
  names_bound tree (TypeInferrer.variable_step self node).
Proof.
  intros Hin Hb. destruct node; try done. simpl.
  apply (fold_left_preserve (names_bound tree)); [|done].
  intros s t Ht Hs. destruct t; try done. simpl.
  destruct (TypeInferrer.inferable _); [|done].
  apply names_bound_variable; [done|]. by eexists.
Qed.

(** X13. [infer_types] records a type only for a name the file binds: a
    variable entry belongs to the target of an assignment or of an
    annotated assignment of the tree, a signature entry to one of its
    function definitions.  Nothing of an earlier file is left. *)
Theorem infer_types_names_bound (self : TypeInferrer.TypeInferrer)
    (tree : ast.node) :
  (forall x t,
     TypeInferrer.get_inferred_variable_type
       (TypeInferrer.infer_types self tree) x = Some t ->
     binds_variable tree x)
  /\ (forall f s,
        TypeInferrer.get_inferred_function_signature
          (TypeInferrer.infer_types self tree) f = Some s ->
        defines_function tree f).
Proof.
  change (names_bound tree (TypeInferrer.infer_types self tree)).
  unfold TypeInferrer.infer_types, TypeInferrer._infer_variable_types,
    TypeInferrer._infer_function_signatures,
    TypeInferrer._collect_basic_types.
  apply (fold_left_preserve (names_bound tree)).
  { intros s n Hn Hs. by apply variable_step_bound. }
  apply (fold_left_preserve (names_bound tree)).
  { intros s n Hn Hs. by apply signature_step_bound. }
  apply (fold_left_preserve (names_bound tree)).
  { intros s n Hn Hs. by apply collect_step_bound. }
  split; intros ? ? Hget; discriminate.
Qed.

End InferenceMaps.

(** ** The extractor's queries *)

Lemma visit_projection {A} config (proj : ASTAnalyzer._ASTWalker -> A)
    (step : A -> ast.node -> A) :
  (forall w n, proj (pre_visit config w n) = step (proj w) n) ->
  forall fuel w n,
    proj (ASTAnalyzer.visit config fuel w n)
    = fold_left step (preorder fuel n) (proj w).
Proof.
  intros Hpre fuel. induction fuel as [|fuel IH]; intros w n; [done|].
  rewrite visit_S. cbn [preorder fold_left]. rewrite <- Hpre.
  generalize (pre_visit config w n) as w'.
  generalize (iter_child_nodes n) as cs.
  induction cs as [|c cs IHcs]; intros w'; simpl; [done|].
  by rewrite IHcs, IH, fold_left_app.
Qed.

Lemma fold_declarations (key : ast.node -> option string)
    (l : list ast.node) (d : dict ast.node) (name : string) :
  PyDict.get
    (fold_left (fun d n => match key n with
                           | Some k => PyDict.set d k n
                           | None => d
                           end) l d) name
  = match last (filter (fun n => key n = Some name) l) with
    | Some n => Some n
    | None => PyDict.get d name
    end.
Proof.
  revert d. induction l as [|n l IH]; intros d; simpl; [done|].
  rewrite IH. destruct (decide (key n = Some name)) as [Hk|Hk].
  - rewrite filter_cons_True by done. rewrite last_cons.
    destruct (last (filter _ l)); [done|].
    rewrite Hk. apply get_set_eq.
  - rewrite filter_cons_False by done.
    destruct (last (filter _ l)); [done|].
    destruct (key n) as [k|] eqn:Ek; [|done].
    apply get_set_ne. congruence.
Qed.

Lemma pre_visit_functions config w n :
  ASTAnalyzer.functions (pre_visit config w n)
  = match def_name n with
    | Some k => PyDict.set (ASTAnalyzer.functions w) k n
    | None => ASTAnalyzer.functions w
    end.
Proof.
  assert (Hkeep : forall {A} (f : ASTAnalyzer._ASTWalker -> A
                                  -> ASTAnalyzer._ASTWalker)
                         (l : list A) w0,
    (forall w a, ASTAnalyzer.functions (f w a) = ASTAnalyzer.functions w) ->
    ASTAnalyzer.functions (fold_left f l w0) = ASTAnalyzer.functions w0).
  { intros A f l w0 Hf.
    apply (fold_left_preserve
             (fun w' => ASTAnalyzer.functions w' = ASTAnalyzer.functions w0));
      [|done].
    intros w' a _ Hw. by rewrite Hf. }
  destruct n; simpl; try done.
  - unfold ASTAnalyzer.visit_FunctionDef. rewrite Hkeep.
    + by destruct (strict config && _).
    + intros w' a. by destruct (strict config && _).
  - apply Hkeep. intros w' t. by destruct t.
  - by destruct n1.
  - by apply Hkeep.
  - by apply Hkeep.
Qed.

Lemma pre_visit_classes config w n :
  ASTAnalyzer.classes (pre_visit config w n)
  = match class_name n with
    | Some k => PyDict.set (ASTAnalyzer.classes w) k n
    | None => ASTAnalyzer.classes w
    end.
Proof.
  assert (Hkeep : forall {A} (f : ASTAnalyzer._ASTWalker -> A
                                  -> ASTAnalyzer._ASTWalker)
                         (l : list A) w0,
    (forall w a, ASTAnalyzer.classes (f w a) = ASTAnalyzer.classes w) ->
    ASTAnalyzer.classes (fold_left f l w0) = ASTAnalyzer.classes w0).
  { intros A f l w0 Hf.
    apply (fold_left_preserve
             (fun w' => ASTAnalyzer.classes w' = ASTAnalyzer.classes w0));
      [|done].
    intros w' a _ Hw. by rewrite Hf. }
  destruct n; simpl; try done.
  - unfold ASTAnalyzer.visit_FunctionDef. rewrite Hkeep.
    + by destruct (strict config && _).
    + intros w' a. by destruct (strict config && _).
  - apply Hkeep. intros w' t. by destruct t.
  - by destruct n1.
  - by apply Hkeep.
  - by apply Hkeep.
Qed.

(** X8. The extractor's [functions] and [classes] maps are flat and
    last-wins: a name maps to the last definition of that name in
    depth-first order, whatever scope it is nested in, and to nothing if
    the tree has no definition of that name. *)
Theorem analyze_ast_last_declaration (config : Config) (tree : ast.node)
    (name : string) :
  let analysis := ASTAnalyzer.analyze_ast config tree in
  PyDict.get (ASTAnalyzer.functions analysis) name
  = last (filter (fun n => def_name n = Some name) (descendants tree))
  /\ PyDict.get (ASTAnalyzer.classes analysis) name
     = last (filter (fun n => class_name n = Some name) (descendants tree)).
Proof.
  cbv zeta. unfold ASTAnalyzer.analyze_ast, descendants. split.
  - rewrite (visit_projection config ASTAnalyzer.functions
               (fun d n => match def_name n with
                           | Some k => PyDict.set d k n
                           | None => d
                           end) (pre_visit_functions config)).
    rewrite fold_declarations. by destruct (last _).
  - rewrite (visit_projection config ASTAnalyzer.classes
               (fun d n => match class_name n with
                           | Some k => PyDict.set d k n
                           | None => d
                           end) (pre_visit_classes config)).
    rewrite fold_declarations. by destruct (last _).
Qed.

Section Extractor.
Context `{PyRuntime}.

(** X9. In every extracted signature the flags agree with the texts: the
    return annotation text is present exactly when
    [has_return_annotation] is set, and an argument's annotation text
    exactly when its [has_annotation] is set.  There is one signature
    per function definition of the tree, nested ones and methods
    included, in the order of the walk. *)
Theorem function_signatures_consistent (tree : ast.node) :
  let sigs := ASTAnalyzer.get_function_signatures tree in
  Forall (fun sig =>
            (ASTAnalyzer.sg_has_return_annotation sig = true
             <-> is_Some (ASTAnalyzer.sg_returns sig))
            /\ Forall (fun a =>
                         ASTAnalyzer.ai_has_annotation a = true
                         <-> is_Some (ASTAnalyzer.ai_annotation a))
                      (ASTAnalyzer.sg_args sig)) sigs
  /\ map ASTAnalyzer.sg_name sigs = omap def_name (walk tree).
Proof.
  cbv zeta. unfold ASTAnalyzer.get_function_signatures.
  generalize (walk tree) as nodes. intros nodes. split.
  - induction nodes as [|n nodes IH]; [constructor|]. simpl.
    apply Forall_app. split; [|exact IH].
    destruct n; try constructor; [|constructor]. simpl. split.
    + destruct returns; simpl.
      * split; [by eexists | done].
      * split; [done | by intros [? ?]].
    + unfold ASTAnalyzer._extract_function_args.
      apply Forall_forall. intros a Ha.
      apply list_elem_of_fmap in Ha as (x & -> & _). simpl.
      destruct (arg_annotation x); simpl.
      * split; [by eexists | done].
      * split; [done | by intros [? ?]].
  - induction nodes as [|n nodes IH]; [done|]. simpl.
    rewrite map_app, IH. by destruct n.
Qed.

(** X10. Every method of every extracted class is also an extracted function
    signature, with the same record: the signature check treats methods
    like any other function. *)
Theorem class_methods_are_functions (tree : ast.node)
    (cls : ASTAnalyzer.class_info) (method : ASTAnalyzer.signature) :
  cls ∈ ASTAnalyzer.get_class_definitions tree ->
  method ∈ ASTAnalyzer.ci_methods cls ->
  method ∈ ASTAnalyzer.get_function_signatures tree.
Proof.
  unfold ASTAnalyzer.get_class_definitions,
    ASTAnalyzer.get_function_signatures.
  rewrite !list_elem_of_In, !in_flat_map.
  intros (n & Hn & Hcls) Hm. apply list_elem_of_In in Hn.
  destruct n; try (by destruct Hcls).
  destruct Hcls as [<-|[]]. simpl in Hm.
  unfold ASTAnalyzer._extract_class_methods in Hm.
  apply list_elem_of_In, list_elem_of_In, in_flat_map in Hm
    as (m & Hmb & Hm).
  exists m. split; [|exact Hm].
  apply list_elem_of_In. apply (walk_children tree _ m Hn). simpl.
  apply list_elem_of_In in Hmb.
  rewrite !elem_of_app. right. right. by left.
Qed.

End Extractor.

(** The method [m] of class [C]. *)
Lemma class_methods_are_functions_witness :
  let method :=
    {| ASTAnalyzer.sg_name := "m"; ASTAnalyzer.sg_lineno := 3;
       ASTAnalyzer.sg_args :=
         [ {| ASTAnalyzer.ai_name := "self";
              ASTAnalyzer.ai_has_annotation := false;
              ASTAnalyzer.ai_annotation := None |} ];
       ASTAnalyzer.sg_returns := None;
       ASTAnalyzer.sg_has_return_annotation := false |} in
  method ∈ @ASTAnalyzer.get_function_signatures sample_runtime
             class_with_method.
Proof.
  refine (@class_methods_are_functions sample_runtime class_with_method
            {| ASTAnalyzer.ci_name := "C"; ASTAnalyzer.ci_lineno := 1;
               ASTAnalyzer.ci_bases := [];
               ASTAnalyzer.ci_methods := _;
               ASTAnalyzer.ci_attributes :=
                 [ {| ASTAnalyzer.at_name := "x";
                      ASTAnalyzer.at_lineno := 2;
                      ASTAnalyzer.at_annotation := Some "int";
                      ASTAnalyzer.at_has_value := true |} ] |}
            _ _ _).
  - vm_compute. left.
  - left.
Defined.

(** ** The loop of [main] *)

Lemma prefix_spec (p s : string) :
  String.prefix p s = true <-> exists b, s = p ++ b.
Proof.
  revert s. induction p as [|c p IH]; intros s.
  - split; [intros _; by exists s | by destruct s].
  - destruct s as [|c' s]; simpl; [split; [done | by intros [b ?]]|].
    destruct (Ascii.ascii_dec c c') as [->|Hne].
    + rewrite IH. split.
      * intros [b ->]. by exists b.
      * intros [b [= ->]]. by exists b.
    + split; [done|]. intros [b [= ? ?]]. done.
Qed.

(** [pattern in s] holds exactly when [s] is some text, then [pattern],
    then some text. *)
Lemma contains_spec (s pattern : string) :
  cli.contains s pattern = true <-> exists a b, s = a ++ pattern ++ b.
Proof.
  induction s as [|c s IH]; cbn [cli.contains].
  - rewrite orb_false_r, prefix_spec. split.
    + intros [b ->]. by exists EmptyString, b.
    + intros (a & b & E). destruct a; [by exists b|done].
  - rewrite orb_true_iff, prefix_spec, IH. split.
    + intros [[b ->]|(a & b & ->)].
      * by exists EmptyString, b.
      * by exists (String c a), b.
    + intros (a & b & E). destruct a as [|c' a].
      * left. by exists b.
      * right. simpl in E. injection E as -> ->. by exists a, b.
Qed.

Section MainLoop.
Context `{PyRuntime}.

Import TypeChecker.

Lemma check_file_config self file_path content :
  config (checker (check_file self file_path content)) = config self.
Proof.
  destruct content as [tree|e|e]; [|done|done].
  by destruct (check_file_parsed self file_path tree) as (Hc & _).
Qed.

Lemma file_errors_any_checker self pc :
  returned (check_file self pc.1 pc.2) = file_errors (config self) pc.
Proof.
  unfold file_errors. destruct pc as [p [tree|e|e]]; cbn [fst snd];
    [|done|done].
  destruct (parsed_findings_options self
              (new_checker (config self) Reporter.new_reporter)
              p tree eq_refl eq_refl) as (Herr & _).
  destruct (check_file_parsed self p tree) as (_ & _ & _ & _ & ->).
  destruct (check_file_parsed
              (new_checker (config self) Reporter.new_reporter) p tree)
    as (_ & _ & _ & _ & ->).
  by rewrite Herr.
Qed.

Lemma file_errors_nonneg config pc : 0 <= file_errors config pc.
Proof.
  unfold file_errors. destruct pc as [p [tree|e|e]]; cbn [fst snd];
    [|done|done].
  destruct (check_file_parsed
              (new_checker config Reporter.new_reporter) p tree)
    as (_ & _ & _ & _ & ->).
  lia.
Qed.

Lemma sum_Z_app (l1 l2 : list Z) :
  sum_Z (l1 ++ l2)%list = sum_Z l1 + sum_Z l2.
Proof. unfold sum_Z. induction l1; simpl; lia. Qed.

Lemma check_one_advanced st file_path content :
  advanced (config (cli.checker st)) st
    (cli.check_one st file_path content) [(file_path, content)].
Proof.
  unfold advanced, cli.check_one. simpl. split_and!.
  - apply check_file_config.
  - done.
  - rewrite <- (file_errors_any_checker (cli.checker st)
                  (file_path, content)). simpl. lia.
Qed.

Lemma advanced_trans cfg st0 st1 st2 files1 files2 :
  advanced cfg st0 st1 files1 -> advanced cfg st1 st2 files2 ->
  advanced cfg st0 st2 (files1 ++ files2)%list.
Proof.
  intros (Hc1 & Hf1 & He1) (Hc2 & Hf2 & He2). unfold advanced.
  rewrite length_app, map_app, sum_Z_app. split_and!; [done | lia | lia].
Qed.

Lemma advanced_refl cfg st :
  config (cli.checker st) = cfg -> advanced cfg st st [].
Proof. intros Hc. unfold advanced. simpl. split_and!; [done | lia | lia]. Qed.

Lemma process_target_advanced cfg st t :
  config (cli.checker st) = cfg ->
  advanced cfg st (cli.process_target st t) (checked_files cfg [t]).
Proof.
  intros Hc. unfold checked_files. simpl. rewrite app_nil_r.
  destruct t as [path content|py_files]; simpl.
  - subst cfg. apply check_one_advanced.
  - revert st Hc. induction py_files as [|[p c] files IH]; intros st Hc.
    + by apply advanced_refl.
    + cbn [fold_left]. rewrite Hc.
      destruct (cli.excluded cfg p) eqn:Ex.
      * rewrite filter_cons_False by (simpl; congruence). by apply IH.
      * rewrite filter_cons_True by done.
        apply (advanced_trans cfg st (cli.check_one st p c) _ [(p, c)]).
        -- subst cfg. apply check_one_advanced.
        -- apply IH. subst cfg. apply check_file_config.
Qed.

Lemma process_targets_advanced cfg st targets :
  config (cli.checker st) = cfg ->
  advanced cfg st (fold_left cli.process_target targets st)
    (checked_files cfg targets).
Proof.
  revert st. induction targets as [|t targets IH]; intros st Hc.
  - by apply advanced_refl.
  - cbn [fold_left].
    assert (Hsplit : checked_files cfg (t :: targets)
                     = (checked_files cfg [t]
                        ++ checked_files cfg targets)%list).
    { unfold checked_files. simpl. by rewrite app_nil_r. }
    rewrite Hsplit.
    pose proof (process_target_advanced cfg st t Hc) as Ht.
    apply (advanced_trans cfg st _ _ _ _ Ht).
    apply IH. by destruct Ht.
Qed.

Lemma sum_Z_zero (l : list Z) :
  Forall (fun z => 0 <= z) l ->
  (sum_Z l = 0 <-> Forall (fun z => z = 0) l).
Proof.
  unfold sum_Z. induction 1 as [|z l Hz Hl IH]; simpl.
  - split; [constructor | done].
  - assert (0 <= fold_right Z.add 0 l).
    { clear IH. induction Hl; simpl; lia. }
    split.
    + intros Hs. constructor; [lia|]. apply IH. lia.
    + intros Hall. inversion Hall as [|? ? Hz0 Hl0]; subst.
      apply IH in Hl0. lia.
Qed.

Lemma process_targets_sum chk targets :
  cli.total_files (cli.process_targets chk targets)
  = Z.of_nat (length (checked_files (config chk) targets))
  /\ cli.total_errors (cli.process_targets chk targets)
     = sum_Z (map (file_errors (config chk))
                (checked_files (config chk) targets)).
Proof.
  unfold cli.process_targets.
  destruct (process_targets_advanced (config chk)
              {| cli.checker := chk; cli.total_errors := 0;
                 cli.total_files := 0 |} targets eq_refl)
    as (_ & Hf & He).
  simpl in Hf, He. rewrite Hf, He. split; lia.
Qed.

Lemma exit_status_zero cfg (files : list (Path * parse_result)) :
  cli.exit_status (sum_Z (map (file_errors cfg) files)) = 0
  <-> Forall (fun pc => file_errors cfg pc = 0) files.
Proof.
  assert (Hnn : Forall (fun z => 0 <= z) (map (file_errors cfg) files)).
  { apply Forall_fmap, Forall_forall. intros pc _.
    apply file_errors_nonneg. }
  unfold cli.exit_status.
  destruct (Z.eqb_spec (sum_Z (map (file_errors cfg) files)) 0) as [E|E].
  - split; [intros _|done].
    apply sum_Z_zero in E; [|done]. by apply Forall_fmap in E.
  - split; [done|]. intros Hall. exfalso. apply E.
    apply sum_Z_zero; [done|]. by apply Forall_fmap.
Qed.

(** X16. The totals of a run are those of its files taken one by one: the
    number of files checked is the number of explicitly named files plus
    the directory files that no exclude pattern matches, and the error
    total is the sum of what [check_file] returns for each of them on a
    fresh checker: no file changes the count of another.  The exit status
    is 0 exactly when every checked file returns 0. *)
Theorem process_targets_totals (chk : TypeChecker)
    (targets : list cli.target) :
  let st := cli.process_targets chk targets in
  let files := checked_files (config chk) targets in
  cli.total_files st = Z.of_nat (length files)
  /\ cli.total_errors st = sum_Z (map (file_errors (config chk)) files)
  /\ (cli.exit_status (cli.total_errors st) = 0
      <-> Forall (fun pc => file_errors (config chk) pc = 0) files).
Proof.
  cbv zeta. destruct (process_targets_sum chk targets) as (Hf & He).
  split_and!; [exact Hf | exact He |].
  rewrite He. apply exit_status_zero.
Qed.


(** X18. An explicitly named file is checked whatever the exclude patterns
    are.  A file found in a directory is skipped exactly when some
    exclude pattern occurs in its path, so an empty pattern skips every
    file of every directory. *)
Theorem exclude_applies_to_directories_only (chk : TypeChecker)
    (file_path : Path) (content : parse_result)
    (py_files : list (Path * parse_result)) :
  cli.total_files (cli.process_targets chk [cli.File file_path content]) = 1
  /\ (forall py_file,
        cli.excluded (config chk) py_file = true
        <-> exists pattern a b,
              pattern ∈ exclude (config chk)
              /\ path_str py_file = a ++ pattern ++ b)
  /\ cli.total_files (cli.process_targets chk [cli.Directory py_files])
     = Z.of_nat (length (filter (fun pc =>
                           cli.excluded (config chk) pc.1 = false) py_files))
  /\ (EmptyString ∈ exclude (config chk) ->
      cli.total_files (cli.process_targets chk [cli.Directory py_files]) = 0
      /\ cli.total_errors (cli.process_targets chk [cli.Directory py_files])
         = 0).
Proof.
  assert (Hex : forall py_file,
    cli.excluded (config chk) py_file = true
    <-> exists pattern a b,
          pattern ∈ exclude (config chk)
          /\ path_str py_file = a ++ pattern ++ b).
  { intros py_file. unfold cli.excluded. rewrite existsb_exists. split.
    - intros (pattern & Hin & Hc). apply contains_spec in Hc as (a & b & E).
      exists pattern, a, b. split; [by apply list_elem_of_In | done].
    - intros (pattern & a & b & Hin & E). exists pattern.
      split; [by apply list_elem_of_In|]. apply contains_spec. by exists a, b. }
  destruct (process_targets_sum chk [cli.File file_path content])
    as (Hf1 & _).
  destruct (process_targets_sum chk [cli.Directory py_files])
    as (Hf2 & He2).
  unfold checked_files in Hf2, He2. simpl in Hf2, He2.
  rewrite app_nil_r in Hf2, He2.
  split_and!; [exact Hf1 | exact Hex | exact Hf2 |].
  intros Hempty.
  assert (Hnone : filter (fun pc => cli.excluded (config chk) pc.1 = false)
                         py_files = []).
  { apply filter_none. intros [p c] _. simpl.
    assert (cli.excluded (config chk) p = true); [|congruence].
    apply Hex. exists EmptyString, EmptyString, (path_str p).
    split; [done | reflexivity]. }
  rewrite Hf2, He2, Hnone. done.
Qed.

End MainLoop.


(** ** Consequences for call sites and for annotated variables *)

Section Consequences.
Context `{PyRuntime}.

Import TypeChecker.

(** X14. A call that passes no positional argument (none at all, or all by
    keyword) to a bare-name function whose inferred signature records
    argument types is always flagged when [infer] is on: the recorded
    argument map is never empty. *)
Theorem call_without_positional_arguments_flagged (self : TypeChecker)
    (file_path : Path) (tree : ast.node) (f : string)
    (keywords : list ast.node) (lineno : Z)
    (s : TypeInferrer.signature) (d : dict string) :
  infer (config self) = true ->
  Call (Name f) [] keywords lineno ∈ walk tree ->
  TypeInferrer.get_inferred_function_signature
    (TypeInferrer.infer_types (inferrer self) tree) f = Some s ->
  TypeInferrer.sig_args s = Some d ->
  exists e,
    e ∈ errors (checker (check_file self file_path (Parsed tree)))
    /\ type e = "argument_count_mismatch"
    /\ line e = lineno.
Proof.
  intros Ei Hin Hs Hd.
  destruct (check_file_parsed self file_path tree) as (_ & _ & He & _).
  assert (Hne : d <> []).
  { destruct (infer_types_filled (inferrer self) tree) as [_ Hf].
    destruct (Hf f s Hs) as (_ & Ha & _). by apply Ha. }
  destruct d as [|kv d]; [done|].
  eexists. split.
  - rewrite He. rewrite !elem_of_app. right. right.
    unfold call_errors. apply list_elem_of_In, in_flat_map.
    exists (Call (Name f) [] keywords lineno).
    split; [by apply list_elem_of_In|].
    unfold call_mismatch, mismatch_issue, inferrer_for.
    rewrite Ei, Hs, Hd. simpl. left. reflexivity.
  - done.
Qed.

Lemma collect_fold_variable (nodes : list ast.node)
    (self : TypeInferrer.TypeInferrer) (x : string) :
  TypeInferrer.get_inferred_variable_type
    (fold_left TypeInferrer.collect_step nodes self) x
  = match last (omap (annotation_of x) nodes) with
    | Some t => Some t
    | None => TypeInferrer.get_inferred_variable_type self x
    end.
Proof.
  revert self. induction nodes as [|n nodes IH]; intros self; [done|].
  cbn [fold_left omap list_omap]. rewrite IH.
  assert (Hstep :
    TypeInferrer.get_inferred_variable_type
      (TypeInferrer.collect_step self n) x
    = match annotation_of x n with
      | Some t => Some t
      | None => TypeInferrer.get_inferred_variable_type self x
      end).
  { unfold TypeInferrer.get_inferred_variable_type, annotation_of.
    destruct n; try done.
    - simpl. destruct returns; [|done]. by destruct (str_truthy _).
    - destruct n1; try done. simpl.
      destruct (str_truthy _) eqn:Et.
      + simpl. rewrite get_set. by destruct (String.eqb id x).
      + by destruct (String.eqb id x). }
  destruct (annotation_of x n) as [t|] eqn:Ea.
  - rewrite last_cons. by destruct (last _).
  - destruct (last _); [done | exact Hstep].
Qed.

(** X15. A variable that no plain assignment targets keeps what the seed pass
    recorded: after [infer_types] its type is the text of the last
    annotation written for it in walk order (annotations with an empty
    text apart), and it has no entry if there is none. *)
Theorem annotated_only_variable_type (self : TypeInferrer.TypeInferrer)
    (tree : ast.node) (x : string) :
  (forall tv, tv ∈ assignment_targets (walk tree) -> tv.1 <> Name x) ->
  TypeInferrer.get_inferred_variable_type
    (TypeInferrer.infer_types self tree) x
  = last (omap (annotation_of x) (walk tree)).
Proof.
  intros Hnone.
  unfold TypeInferrer.infer_types, TypeInferrer._infer_variable_types.
  rewrite variable_pass_targets, assign_fold_other by done.
  unfold TypeInferrer.get_inferred_variable_type,
    TypeInferrer._infer_function_signatures.
  rewrite signature_pass_variables.
  fold (TypeInferrer.get_inferred_variable_type
          (TypeInferrer._collect_basic_types TypeInferrer.new_inferrer tree)
          x).
  unfold TypeInferrer._collect_basic_types.
  rewrite collect_fold_variable. by destruct (last _).
Qed.

End Consequences.

(** [g(y=1)] where one argument type is inferred for [g]. *)
Lemma call_without_positional_arguments_flagged_witness :
  exists e,
    e ∈ TypeChecker.errors
          (TypeChecker.checker
             (@TypeChecker.check_file sample_runtime
                (TypeChecker.new_checker inferring_config
                   Reporter.new_reporter)
                sample_path (TypeChecker.Parsed call_by_keyword)))
    /\ TypeChecker.type e = "argument_count_mismatch"
    /\ TypeChecker.line e = 3.
Proof.
  refine (@call_without_positional_arguments_flagged sample_runtime
            (TypeChecker.new_checker inferring_config Reporter.new_reporter)
            sample_path call_by_keyword "g"
            [Other "keyword" [Constant (CInt 1)]] 3
            {| TypeInferrer.sig_args := Some [("x", "List")];
               TypeInferrer.sig_returns := None |}
            [("x", "List")] eq_refl _ eq_refl eq_refl).
  vm_compute.
  repeat (first [apply list_elem_of_here | apply list_elem_of_further]).
Defined.

(** [x: int] alone: the type of [x] is [int]. *)
Lemma annotated_only_variable_type_witness :
  TypeInferrer.get_inferred_variable_type
    (@TypeInferrer.infer_types sample_runtime TypeInferrer.new_inferrer
       annotated_only) "x"
  = Some "int".
Proof.
  refine (@annotated_only_variable_type sample_runtime
            TypeInferrer.new_inferrer annotated_only "x" _).
  intros tv Htv. by apply elem_of_nil in Htv.
Defined.



(** [def h(x): pass] in strict mode: two [missing_annotation] errors for
    one [missing_return_type] error and one warning. *)
Lemma strict_findings_reported_twice_witness :
  let out :=
    @TypeChecker.check_file sample_runtime
      (TypeChecker.new_checker strict_config Reporter.new_reporter)
      sample_path (TypeChecker.Parsed unannotated_function) in
  length (filter (fun e => TypeChecker.type e = "missing_annotation")
                 (TypeChecker.errors (TypeChecker.checker out)))
  = (length (filter (fun e => TypeChecker.type e = "missing_return_type")
                    (TypeChecker.errors (TypeChecker.checker out)))
     + length (TypeChecker.warnings (TypeChecker.checker out)))%nat.
Proof.
  exact (@strict_findings_reported_twice sample_runtime
           (TypeChecker.new_checker strict_config Reporter.new_reporter)
           sample_path unannotated_function
           eq_refl).
Defined.
